(** * staticfuzz: the bounded memory board and its slash commands

    A shallow embedding of [staticfuzz.py]: the [Memory] model, the
    [SlashCommand] classes, [validate] and the [new_memory] view, over
    an explicit model of what the module talks to (the ndb datastore,
    the flask session, the HTTP calls and the random generator).

    - Texts are Python 2 [unicode] strings restricted to the code points
      0..255, one [ascii] per code point.
    - The datastore is one sequential, strongly consistent store: a
      query sees every earlier write, and requests do not interleave.
    - A view is a function of the request and of the world before it to
      an outcome and the world after it; exceptions are outcomes.
    - The values of [config.py], the [glitch] module and the answers of
      the network are parameters. *)

From stdpp Require Import base gmap list strings sorting.
From Stdlib Require Import ZArith Lia Ascii.

Local Open Scope Z_scope.

(** ** Python strings *)

Module Py.

Definition str := list ascii.

Definition code (c : ascii) : N := N_of_ascii c.

(** [unicode.isspace] on the code points below 256: TAB..CR, FS..US,
    SPACE, NEL and NBSP.  This is what [strip()] removes. *)
Definition isspace (c : ascii) : bool :=
  let n := code c in
  (((9 <=? n) && (n <=? 13)) || ((28 <=? n) && (n <=? 32))
   || (n =? 133) || (n =? 160))%N.

(** The class [\s] of [re] without the UNICODE flag: [ \t\n\r\f\v]. *)
Definition re_space (c : ascii) : bool :=
  let n := code c in
  (((9 <=? n) && (n <=? 13)) || (n =? 32))%N.

(** [unicode.lower] on one code point below 256: A..Z and the Latin-1
    capitals (all of 0xC0..0xDE but the multiplication sign). *)
Definition lower_char (c : ascii) : ascii :=
  let n := code c in
  if (((65 <=? n) && (n <=? 90))
      || ((192 <=? n) && (n <=? 222) && negb (n =? 215)))%N
  then ascii_of_N (n + 32) else c.

Definition lower (s : str) : str := map lower_char s.

Fixpoint lstrip (s : str) : str :=
  match s with
  | [] => []
  | c :: s' => if isspace c then lstrip s' else s
  end.

Fixpoint rstrip (s : str) : str :=
  match s with
  | [] => []
  | c :: s' =>
      match rstrip s' with
      | [] => if isspace c then [] else [c]
      | r => c :: r
      end
  end.

Definition strip (s : str) : str := rstrip (lstrip s).

Definition eqb (a b : str) : bool := bool_decide (a = b).

(** [s.startswith(p)] *)
Fixpoint startswith (p s : str) : bool :=
  match p, s with
  | [], _ => true
  | _ :: _, [] => false
  | a :: p', b :: s' => bool_decide (a = b) && startswith p' s'
  end.

(** [s.endswith(p)] *)
Definition endswith (p s : str) : bool := startswith (rev p) (rev s).

(** [old in s] *)
Fixpoint contains (old s : str) : bool :=
  match s with
  | [] => startswith old []
  | _ :: s' => startswith old s || contains old s'
  end.

(** [s.replace(old, new)]: every occurrence of [old], found scanning
    from the left and not overlapping the previous one, becomes [new].
    [skip] counts the characters of a found occurrence still to pass. *)
Fixpoint replace_from (skip : nat) (old new s : str) : str :=
  match s with
  | [] => []
  | c :: s' =>
      match skip with
      | S k => replace_from k old new s'
      | O =>
          if startswith old s
          then new ++ replace_from (length old - 1) old new s'
          else c :: replace_from 0 old new s'
      end
  end.

Definition replace (old new s : str) : str :=
  match old with
  | [] => new ++ flat_map (fun c => c :: new) s
  | _ :: _ => replace_from 0 old new s
  end.

(** [s.split(sep)] for a one-character separator: the pieces between
    the separators, empty pieces included. *)
Fixpoint split (sep : ascii) (s : str) : list str :=
  match s with
  | [] => [[]]
  | c :: s' =>
      if bool_decide (c = sep) then [] :: split sep s'
      else match split sep s' with
           | [] => [[c]]
           | w :: ws => (c :: w) :: ws
           end
  end.

(** [sep.join(parts)] *)
Fixpoint join (sep : str) (parts : list str) : str :=
  match parts with
  | [] => []
  | [p] => p
  | p :: ps => p ++ sep ++ join sep ps
  end.

(** [re.match(lit + r'\s*', s)] for a pattern [lit] without regex
    operators: the end of the match, or [None] when there is none. *)
Fixpoint span_space (s : str) : nat :=
  match s with
  | c :: s' => if re_space c then S (span_space s') else O
  | [] => O
  end.

Definition re_match_lit_spaces (lit s : str) : option nat :=
  if startswith lit s
  then Some (length lit + span_space (drop (length lit) s))%nat
  else None.

End Py.

Abbreviation str := Py.str.

Definition lit (s : string) : str := String.list_ascii_of_string s.


(** ** What the module is configured with and what it returns *)

(** The keys of [config.py] that the modelled code reads. *)
Record config := {
  WHISPER_SECRET : str;
  DEITY_GREET : str;
  DEITY_GOODBYE : str;
  LOGIN_FAIL : str;
  ERROR_DANBOORU : str;
  ERROR_TOO_LONG : str;
  ERROR_UNORIGINAL : str;
  MAX_CHARACTERS : Z
}.

(** What a view returns: [flask.redirect(flask.url_for(endpoint))] or a
    [(message, status)] pair. *)
Inductive response :=
| Redirect (endpoint : str)
| Status (message : str) (code : Z).

Definition show_memories_endpoint : str :=
  Eval cbv in lit "show_memories".

(** The exceptions that the modelled code can raise. *)
Inductive exn :=
| TypeError
| KeyError
| IndexError
| AttributeError
| RequestError.

#[global] Instance exn_eq_dec : EqDecision exn.
Proof. solve_decision. Defined.

(** What a call to the outside gives back: a value or an exception. *)
Inductive result (A : Type) :=
| Ok (a : A)
| Err (e : exn).
Arguments Ok {A} a.
Arguments Err {A} e.

(** How a computation ends: with a value, with an exception, or not
    within the steps a loop was given. *)
Inductive outcome (A : Type) :=
| Val (a : A)
| Raise (e : exn)
| Unfinished.
Arguments Val {A} a.
Arguments Raise {A} e.
Arguments Unfinished {A}.

(** ** The Memory model and the datastore *)

Record Memory := {
  timestamp : option Z;
  text : str;
  base64_image : option str
}.

Module Ndb.

(** The entities of kind Memory by integer key id, the next id to
    allocate, and (ghost) the row sets that the writes so far have
    produced, newest first: the states a reader can have seen. *)
Record t := {
  rows : gmap Z Memory;
  next_id : Z;
  history : list (gmap Z Memory)
}.

(** Order of the index on [Memory.timestamp]: by property value, an
    unset value first, then by key. *)
Definition ts_lt (a b : option Z) : Prop :=
  match a, b with
  | None, Some _ => True
  | Some x, Some y => x < y
  | _, None => False
  end.

Definition entry_le (a b : Z * Memory) : Prop :=
  ts_lt (timestamp a.2) (timestamp b.2)
  \/ (timestamp a.2 = timestamp b.2 /\ a.1 <= b.1).

#[global] Instance ts_lt_dec a b : Decision (ts_lt a b).
Proof. destruct a, b; simpl; apply _. Defined.

#[global] Instance entry_le_dec a b : Decision (entry_le a b).
Proof. unfold entry_le. apply _. Defined.

(** [Memory.query().count()] *)
Definition count (ds : t) : nat := size (rows ds).

(** [Memory.query().order(Memory.timestamp)] *)
Definition order_by_timestamp (ds : t) : list (Z * Memory) :=
  merge_sort entry_le (map_to_list (rows ds)).

(** [Memory.query().order(Memory.timestamp).get(keys_only=True)] *)
Definition first_key (ds : t) : option Z :=
  fst <$> head (order_by_timestamp ds).

(** [Memory.query(Memory.text == s).count()] *)
Definition count_text (s : str) (ds : t) : nat :=
  length (filter (fun e : Z * Memory => text e.2 = s) (map_to_list (rows ds))).

(** [key.delete()] *)
Definition delete_key (k : Z) (ds : t) : t :=
  let rows' := delete k (rows ds) in
  {| rows := rows'; next_id := next_id ds; history := rows' :: history ds |}.

(** [entity.put()] of an entity without key: an id is allocated, and
    [auto_now_add] fills an unset timestamp with the current time. *)
Definition put (now : Z) (m : Memory) (ds : t) : t :=
  let stored :=
    {| timestamp := match timestamp m with Some ts => Some ts | None => Some now end;
       text := text m;
       base64_image := base64_image m |} in
  let rows' := <[next_id ds := stored]> (rows ds) in
  {| rows := rows'; next_id := next_id ds + 1; history := rows' :: history ds |}.

End Ndb.

(** ** The world of a request *)

(** What persists between requests: the datastore, the [deity] key of
    the caller's [flask.session] ([None] when the key is absent) and the
    flashed messages. *)
Record world := {
  db : Ndb.t;
  deity : option bool;
  flashes : list str
}.

(** One element of the JSON list that the Danbooru search returns. *)
Record post := { file_url : option str }.

(** What a request brings with it and what the outside answers during
    it. [danbooru_posts tags] stands for [urllib.quote_plus], the GET of
    [posts.json?tags=..&limit=10] and [resp.json()], any of which can
    raise; [http_head uri] is the status of [requests.head(uri)], or
    [None] for the errors that [uri_valid_image] catches;
    [glitch_from_url] is the thumbnail maker of the [glitch] module;
    [random_draw] is the draw of the random generator; [now] is the
    clock at [put()]. *)
Record request := {
  form_text : str;
  danbooru_posts : str -> result (list post);
  random_draw : nat;
  http_head : str -> option Z;
  glitch_from_url : str -> str;
  now : Z
}.

(** State and exceptions. *)
Definition M (A : Type) : Type := world -> outcome A * world.

Definition ret {A} (a : A) : M A := fun w => (Val a, w).
Definition raise {A} (e : exn) : M A := fun w => (Raise e, w).
Definition bind {A B} (c : M A) (k : A -> M B) : M B :=
  fun w => match c w with
           | (Val a, w') => k a w'
           | (Raise e, w') => (Raise e, w')
           | (Unfinished, w') => (Unfinished, w')
           end.
Definition get_world : M world := fun w => (Val w, w).
Definition lift {A} (r : result A) : M A :=
  fun w => match r with Ok a => (Val a, w) | Err e => (Raise e, w) end.

Declare Scope py_scope.
Delimit Scope py_scope with py.
Notation "x <- c ;; k" := (bind c (fun x => k))
  (at level 100, c at next level, right associativity) : py_scope.
Notation "c ;;; k" := (bind c (fun _ => k))
  (at level 100, right associativity) : py_scope.

Definition set_db (d : Ndb.t) (w : world) : world :=
  {| db := d; deity := deity w; flashes := flashes w |}.

(** A datastore write. *)
Definition with_db (f : Ndb.t -> Ndb.t) : M unit :=
  fun w => (Val tt, set_db (f (db w)) w).

(** [try: c except e: h] *)
Definition try_except {A} (c : M A) (e : exn) (h : M A) : M A :=
  fun w => match c w with
           | (Raise e', w') => if decide (e' = e) then h w' else (Raise e', w')
           | r => r
           end.

(** [flask.session['deity'] = v], [flask.session.pop('deity', None)]
    and [flask.flash(message)]. *)
Definition session_set_deity (v : bool) : M unit :=
  fun w => (Val tt, {| db := db w; deity := Some v; flashes := flashes w |}).
Definition session_pop_deity : M unit :=
  fun w => (Val tt, {| db := db w; deity := None; flashes := flashes w |}).
Definition flash (message : str) : M unit :=
  fun w => (Val tt, {| db := db w; deity := deity w; flashes := flashes w ++ [message] |}).

(** [random.choice(seq)]: the element at the drawn position;
    [IndexError] on an empty sequence. *)
Definition random_choice {A} (draw : nat) (seq : list A) : result A :=
  match seq with
  | [] => Err IndexError
  | _ :: _ =>
      match seq !! (draw mod length seq)%nat with
      | Some x => Ok x
      | None => Err IndexError
      end
  end.

Local Open Scope py_scope.

(** ** Slash commands *)

Inductive SlashCommandResponse :=
| CreateMemory (value : str)
| Reply (value : response).

Definition create_memory (r : SlashCommandResponse) : bool :=
  match r with CreateMemory _ => true | Reply _ => false end.

(** A subclass of [SlashCommand]: its [NAME] and its [callback], which
    gets the argument list (and fails with [TypeError] on a list that
    does not fit its parameters). *)
Record SlashCommand := {
  NAME : str;
  callback : list str -> request -> M SlashCommandResponse
}.

Definition truthy (s : str) : bool :=
  match s with [] => false | _ :: _ => true end.

Definition slash : ascii := "/"%char.
Definition space : ascii := " "%char.

(** [SlashCommand.attempt]'s pattern and argument list. *)
Definition pattern_of (cls : SlashCommand) : str := slash :: NAME cls.

Definition args_of (pattern text : str) : list str :=
  let text := Py.replace pattern [] text in
  map Py.strip (List.filter (fun arg => truthy (Py.strip arg)) (Py.split space text)).

Definition attempt (cls : SlashCommand) (text : str) (req : request)
  : M (option SlashCommandResponse) :=
  let text := Py.strip (Py.lower text) in
  let pattern := pattern_of cls in
  match Py.re_match_lit_spaces pattern text with
  | None => ret None
  | Some _ =>
      let args := args_of pattern text in
      r <- callback cls args req ;;
      ret (Some r)
  end.

Definition danbooru_host : str := Eval cbv in lit "http://danbooru.donmai.us".

Section App.

Variable cfg : config.

Definition SlashLogin_callback (args : list str) (req : request)
  : M SlashCommandResponse :=
  match args with
  | [secret_attempt] =>
      if Py.eqb secret_attempt (WHISPER_SECRET cfg) then
        session_set_deity true ;;;
        flash (DEITY_GREET cfg) ;;;
        ret (Reply (Redirect show_memories_endpoint))
      else
        ret (Reply (Status (LOGIN_FAIL cfg) 401))
  | _ => raise TypeError
  end.

Definition SlashLogout_callback (args : list str) (req : request)
  : M SlashCommandResponse :=
  match args with
  | [] =>
      session_pop_deity ;;;
      flash (DEITY_GOODBYE cfg) ;;;
      ret (Reply (Redirect show_memories_endpoint))
  | _ => raise TypeError
  end.

Definition SlashDanbooru_callback (args : list str) (req : request)
  : M SlashCommandResponse :=
  let tags := Py.join [space] args in
  results <- lift (danbooru_posts req tags) ;;
  try_except
    (chosen <- lift (random_choice (random_draw req) results) ;;
     match file_url chosen with
     | None => raise KeyError
     | Some url => ret (CreateMemory (danbooru_host ++ url))
     end)
    IndexError
    (ret (Reply (Status (ERROR_DANBOORU cfg) 400))).

Definition SlashLogin : SlashCommand :=
  {| NAME := lit "login"; callback := SlashLogin_callback |}.
Definition SlashLogout : SlashCommand :=
  {| NAME := lit "logout"; callback := SlashLogout_callback |}.
Definition SlashDanbooru : SlashCommand :=
  {| NAME := lit "danbooru"; callback := SlashDanbooru_callback |}.

(** ** Memory.create *)

Definition image_extension_whitelist : list str :=
  Eval cbv in [lit ".jpg"; lit ".jpeg"; lit ".png"; lit ".gif"].

Definition uri_valid_image (req : request) (uri : str) : bool :=
  if negb (existsb (fun ext => Py.endswith ext (Py.lower uri))
             image_extension_whitelist)
  then false
  else if negb (Py.startswith (lit "http") uri) then false
  else match http_head req uri with
       | Some status_code => bool_decide (status_code = 200)
       | None => false
       end.

Definition Memory_create (req : request) (text : str) : Memory :=
  {| timestamp := None;
     text := text;
     base64_image :=
       if uri_valid_image req text then Some (glitch_from_url req text)
       else None |}.

(** ** The views *)

Definition validate (memory_text : str) (ds : Ndb.t) : option response :=
  if (length memory_text =? 0)%nat then
    Some (Status (lit "Too short!") 400)
  else if Z.of_nat (length memory_text) >? MAX_CHARACTERS cfg then
    Some (Status (ERROR_TOO_LONG cfg) 400)
  else if (0 <? Ndb.count_text memory_text ds)%nat then
    Some (Status (ERROR_UNORIGINAL cfg) 400)
  else None.

Definition slash_commands : list SlashCommand :=
  [SlashLogin; SlashLogout; SlashDanbooru].

(** How the [for] loop over the commands ends: by running out of
    commands or by [break], with the text to go on with, or by
    [return]. *)
Inductive loop_exit :=
| Fallthrough (memory_text : str)
| Return (value : response).

Fixpoint for_slash_commands (cmds : list SlashCommand) (memory_text : str)
    (req : request) : M loop_exit :=
  match cmds with
  | [] => ret (Fallthrough memory_text)
  | slash_command :: cmds' =>
      result <- attempt slash_command memory_text req ;;
      match result with
      | None => for_slash_commands cmds' memory_text req
      | Some (CreateMemory value) => ret (Fallthrough value)
      | Some (Reply value) => ret (Return value)
      end
  end.

(** [while Memory.query().count() == 10: ...], given [fuel] tests of
    the condition. *)
Fixpoint while_ten_memories (fuel : nat) : M unit :=
  match fuel with
  | O => fun w => (Unfinished, w)
  | S fuel' =>
      w <- get_world ;;
      if (Ndb.count (db w) =? 10)%nat then
        match Ndb.first_key (db w) with
        | None => raise AttributeError
        | Some memory_to_delete =>
            with_db (Ndb.delete_key memory_to_delete) ;;;
            while_ten_memories fuel'
        end
      else ret tt
  end.

(** [new_memory] up to the slash check: the response it returns there
    ([inl]), or the text that goes on to be stored ([inr]). *)
Definition checked_text (req : request) : M (response + str) :=
  let memory_text := Py.strip (form_text req) in
  let original_memory_text := memory_text in
  w <- get_world ;;
  match validate memory_text (db w) with
  | Some validation_payload => ret (inl validation_payload)
  | None =>
      exit <- for_slash_commands slash_commands memory_text req ;;
      match exit with
      | Return value => ret (inl value)
      | Fallthrough memory_text =>
          match memory_text !! 0%nat with
          | None => raise IndexError
          | Some c =>
              if bool_decide (c = slash)
                 && Py.eqb memory_text original_memory_text
              then ret (inl (Status (lit "Invalid Slash Command") 400))
              else ret (inr memory_text)
          end
      end
  end.

(** The rest of [new_memory]: make room, create, put, redirect. *)
Definition store_memory (req : request) (memory_text : str) : M response :=
  w <- get_world ;;
  while_ten_memories (S (Ndb.count (db w))) ;;;
  let new_memory := Memory_create req memory_text in
  with_db (Ndb.put (now req) new_memory) ;;;
  ret (Redirect show_memories_endpoint).

Definition new_memory (req : request) : M response :=
  r <- checked_text req ;;
  match r with
  | inl value => ret value
  | inr memory_text => store_memory req memory_text
  end.

(** A run of requests to [new_memory], one after the other. *)
Fixpoint serve (reqs : list request) (w : world) : world :=
  match reqs with
  | [] => w
  | req :: reqs' => serve reqs' (new_memory req w).2
  end.

End App.

(** ** The other views *)

(** The dictionary that [Memory.to_dict] builds. *)
Record MemoryDict := {
  dict_text : str;
  dict_timestamp : str;
  dict_base64_image : option str;
  dict_id : Z
}.

Section Listing.

(** [datetime.isoformat("T")] *)
Variable isoformat : Z -> str.

(** [Memory.to_dict]; on an entity without timestamp, [None.isoformat]
    is an [AttributeError]. *)
Definition to_dict (e : Z * Memory) : result MemoryDict :=
  match timestamp e.2 with
  | None => Err AttributeError
  | Some ts =>
      Ok {| dict_text := text e.2;
            dict_timestamp := isoformat ts ++ lit "Z";
            dict_base64_image := base64_image e.2;
            dict_id := e.1 |}
  end.

(** [[memory.to_dict() for memory in memories]] *)
Fixpoint to_dicts (memories : list (Z * Memory)) : result (list MemoryDict) :=
  match memories with
  | [] => Ok []
  | memory :: memories' =>
      match to_dict memory with
      | Err e => Err e
      | Ok d =>
          match to_dicts memories' with
          | Err e => Err e
          | Ok ds => Ok (d :: ds)
          end
      end
  end.

(** [show_memories]: what it hands to the template. *)
Definition show_memories (w : world) : result (list MemoryDict) :=
  let memories := Ndb.order_by_timestamp (db w) in
  to_dicts memories.

End Listing.

(** How [forget] ends: with a response, with [flask.abort(code)], or
    with an exception. *)
Inductive view_exit :=
| Responded (r : response)
| Aborted (code : Z)
| Raised (e : exn).

(** [forget]. [form_key] is the key that
    [ndb.Key('Memory', int(flask.request.form["id"]))] builds, by its
    id, or the exception of the form lookup, of [int] or of [ndb.Key]. *)
Definition forget (form_key : result Z) (w : world) : view_exit * world :=
  match deity w with
  | Some true =>
      match form_key with
      | Err e => (Raised e, w)
      | Ok memory_key_to_forget =>
          (Responded (Redirect show_memories_endpoint),
           set_db (Ndb.delete_key memory_key_to_forget (db w)) w)
      end
  | _ => (Aborted 401, w)
  end.

(** ** The number_links filter *)

Definition dquote : ascii := Eval cbv in ascii_of_nat 34.

(** [markupsafe.escape], character by character. *)
Definition escape_char (c : ascii) : str :=
  if bool_decide (c = "&"%char) then lit "&amp;"
  else if bool_decide (c = ">"%char) then lit "&gt;"
  else if bool_decide (c = "<"%char) then lit "&lt;"
  else if bool_decide (c = "'"%char) then lit "&#39;"
  else if bool_decide (c = dquote) then lit "&#34;"
  else [c].

Definition escape (s : str) : str := flat_map escape_char s.

(** The class [\d] of [re] without the UNICODE flag. *)
Definition re_digit (c : ascii) : bool :=
  ((48 <=? Py.code c) && (Py.code c <=? 57))%N.

Fixpoint span_digits (s : str) : str :=
  match s with
  | c :: s' => if re_digit c then c :: span_digits s' else []
  | [] => []
  end.

(** The replacement [<a href="\1">\1</a>]. *)
Definition anchor (group1 : str) : str :=
  lit "<a href=" ++ [dquote] ++ group1 ++ [dquote] ++ lit ">"
  ++ group1 ++ lit "</a>".

(** [re.compile(r'(?<!&)(#\d+)').subn(anchor, s)[0]]: the matches are
    taken from the left; [prev] is the character before the position,
    [skip] counts the characters of a match still to pass. *)
Fixpoint sub_number_links (skip : nat) (prev : option ascii) (s : str) : str :=
  match s with
  | [] => []
  | c :: s' =>
      match skip with
      | S k => sub_number_links k (Some c) s'
      | O =>
          if bool_decide (c = "#"%char)
             && negb (bool_decide (prev = Some "&"%char))
             && truthy (span_digits s')
          then anchor (c :: span_digits s')
               ++ sub_number_links (length (span_digits s')) (Some c) s'
          else c :: sub_number_links 0 (Some c) s'
      end
  end.

Definition number_links (string_being_filtered : str) : str :=
  let escaped_string := escape string_being_filtered in
  sub_number_links 0 None escaped_string.

(** ** Vocabulary of the properties *)

(** A computation that leaves the datastore as it is. *)
Definition keeps_db {A} (c : M A) : Prop := forall w, db (c w).2 = db w.

(** The world after the loop: the oldest entity gone when there were
    exactly ten, nothing changed otherwise. *)
Definition evicted (w : world) : world :=
  if (Ndb.count (db w) =? 10)%nat then
    match Ndb.first_key (db w) with
    | Some k => set_db (Ndb.delete_key k (db w)) w
    | None => w
    end
  else w.

(** The datastore holds at most ten memories, and so did every row set
    that a write has produced. *)
Definition within_capacity (ds : Ndb.t) : Prop :=
  (Ndb.count ds <= 10)%nat
  /\ Forall (fun r : gmap Z Memory => (size r <= 10)%nat) (Ndb.history ds).

(** The lower-cased, trimmed text starts with [/] and the command's
    name. *)
Definition starts_with_command (cls : SlashCommand) (text : str) : bool :=
  Py.startswith (pattern_of cls) (Py.strip (Py.lower text)).

(** The first command of a list, in its order, that a text starts with. *)
Definition first_command (cmds : list SlashCommand) (text : str)
  : option SlashCommand :=
  List.find (fun cls => starts_with_command cls text) cmds.

(** What [new_memory]'s loop makes of the outcome of a callback. *)
Definition loop_exit_of (r : outcome SlashCommandResponse * world)
  : outcome loop_exit * world :=
  match r with
  | (Val (CreateMemory value), w) => (Val (Fallthrough value), w)
  | (Val (Reply value), w) => (Val (Return value), w)
  | (Raise e, w) => (Raise e, w)
  | (Unfinished, w) => (Unfinished, w)
  end.

(** A match as the specification words it: after the name comes nothing
    or whitespace. *)
Definition spec_matches (cls : SlashCommand) (text : str) : bool :=
  let t := Py.strip (Py.lower text) in
  Py.startswith (pattern_of cls) t
  && match drop (length (pattern_of cls)) t with
     | [] => true
     | c :: _ => Py.isspace c
     end.

Definition login_pattern : str := Eval cbv in lit "/login".

(** The text [/login s]. *)
Definition login_text (s : str) : str := login_pattern ++ space :: s.

(** One argument that reaches the callback as it was typed: not empty,
    no whitespace, nothing for [lower()] to change, no [/login] in it. *)
Definition plain_token (s : str) : bool :=
  truthy s
  && forallb (fun c => negb (Py.isspace c)) s
  && Py.eqb (Py.lower s) s
  && negb (Py.contains login_pattern s).

(** The messages that the configuration holds. *)
Definition configured_messages (cfg : config) : list str :=
  [DEITY_GREET cfg; DEITY_GOODBYE cfg; LOGIN_FAIL cfg; ERROR_DANBOORU cfg;
   ERROR_TOO_LONG cfg; ERROR_UNORIGINAL cfg].

(** A computation that ends, with a value or an exception. *)
Definition finishes {A} (c : M A) : Prop := forall w, (c w).1 <> Unfinished.

(** Some stored memory has the text [t]. *)
Definition stored_text (ds : Ndb.t) (t : str) : Prop :=
  exists k m, Ndb.rows ds !! k = Some m /\ text m = t.

(** Every key in use lies below the next id to allocate. *)
Definition fresh_ids (ds : Ndb.t) : Prop :=
  forall k, is_Some (Ndb.rows ds !! k) -> k < Ndb.next_id ds.

(** No stored text is empty or starts with a slash. *)
Definition presentable (ds : Ndb.t) : Prop :=
  forall k m, Ndb.rows ds !! k = Some m ->
    exists c rest, text m = c :: rest /\ c <> slash.

(** Every stored memory has its timestamp. *)
Definition timestamps_set (ds : Ndb.t) : Prop :=
  forall k m, Ndb.rows ds !! k = Some m -> is_Some (timestamp m).

(** A computation that leaves the session's [deity] as it is. *)
Definition keeps_deity {A} (c : M A) : Prop :=
  forall w, deity (c w).2 = deity w.

(** A dictionary shows its entity. *)
Definition shows (isoformat : Z -> str) (e : Z * Memory) (d : MemoryDict)
  : Prop :=
  dict_id d = e.1 /\ dict_text d = text e.2
  /\ dict_base64_image d = base64_image e.2
  /\ exists ts, timestamp e.2 = Some ts
                /\ dict_timestamp d = isoformat ts ++ lit "Z".

(** ** Sample data *)

Definition sample_config : config := {|
  WHISPER_SECRET := lit "sesame";
  DEITY_GREET := lit "Welcome, deity.";
  DEITY_GOODBYE := lit "Farewell.";
  LOGIN_FAIL := lit "Login failed.";
  ERROR_DANBOORU := lit "No results.";
  ERROR_TOO_LONG := lit "Too long!";
  ERROR_UNORIGINAL := lit "Unoriginal!";
  MAX_CHARACTERS := 140
|}.

Definition sample_memory (ts : Z) (t : string) : Memory :=
  {| timestamp := Some ts; text := lit t; base64_image := None |}.

(** Eleven memories; the ones under the keys 2 and 3 are the oldest and
    carry the same timestamp. *)
Definition sample_entities : list (Z * Memory) :=
  [(1, sample_memory 5 "a"); (2, sample_memory 3 "b");
   (3, sample_memory 3 "c"); (4, sample_memory 9 "d");
   (5, sample_memory 10 "e"); (6, sample_memory 11 "f");
   (7, sample_memory 12 "g"); (8, sample_memory 13 "h");
   (9, sample_memory 14 "i"); (10, sample_memory 15 "j");
   (11, sample_memory 16 "k")].

Definition sample_world (n : nat) : world :=
  {| db := {| Ndb.rows := list_to_map (take n sample_entities);
              Ndb.next_id := 12;
              Ndb.history := [] |};
     deity := None;
     flashes := [] |}.

Definition sample_request (t : str) : request :=
  {| form_text := t;
     danbooru_posts := fun _ => Ok [{| file_url := Some (lit "/data/a.jpg") |}];
     random_draw := 0;
     http_head := fun _ => Some 200;
     glitch_from_url := fun _ => lit "b64";
     now := 50 |}.

(** * Properties *)

(** ** The datastore *)

Module NdbFacts.
Import Ndb.

Lemma ts_trichotomy a b : ts_lt a b \/ a = b \/ ts_lt b a.
Proof.
  destruct a as [x|], b as [y|]; simpl; auto.
  destruct (Z.lt_total x y) as [H|[H|H]]; subst; auto.
Qed.

Lemma ts_lt_trans a b c : ts_lt a b -> ts_lt b c -> ts_lt a c.
Proof. destruct a, b, c; simpl; try tauto; lia. Qed.

Lemma entry_le_refl e : entry_le e e.
Proof. right. split; [reflexivity | lia]. Qed.

#[global] Instance entry_le_total : Total entry_le.
Proof.
  intros [k1 m1] [k2 m2]. unfold entry_le. simpl.
  destruct (ts_trichotomy (timestamp m1) (timestamp m2)) as [H|[H|H]]; auto.
  destruct (Z.le_ge_cases k1 k2); auto.
Qed.

#[global] Instance entry_le_transitive : Transitive entry_le.
Proof.
  intros [k1 m1] [k2 m2] [k3 m3]. unfold entry_le. simpl.
  intros [H12|[E12 L12]] [H23|[E23 L23]].
  - left. eapply ts_lt_trans; eauto.
  - left. rewrite <- E23. exact H12.
  - left. rewrite E12. exact H23.
  - right. split; [congruence | lia].
Qed.

Lemma order_by_timestamp_elem ds k m :
  (k, m) ∈ order_by_timestamp ds <-> rows ds !! k = Some m.
Proof.
  unfold order_by_timestamp.
  rewrite (merge_sort_Permutation entry_le (map_to_list (rows ds))).
  apply elem_of_map_to_list.
Qed.

Lemma order_by_timestamp_length ds : length (order_by_timestamp ds) = count ds.
Proof.
  unfold order_by_timestamp, count.
  rewrite (merge_sort_Permutation entry_le (map_to_list (rows ds))).
  apply length_map_to_list.
Qed.

Lemma order_by_timestamp_sorted ds :
  StronglySorted entry_le (order_by_timestamp ds).
Proof. apply StronglySorted_merge_sort; apply _. Qed.

(** The key that [get] returns is the key of a stored entity, and no
    stored entity comes before it in the order of the index. *)
Lemma first_key_oldest ds k :
  first_key ds = Some k ->
  exists m, rows ds !! k = Some m
    /\ forall k' m', rows ds !! k' = Some m' -> entry_le (k, m) (k', m').
Proof.
  unfold first_key. intros H.
  pose proof (order_by_timestamp_sorted ds) as Hs.
  pose proof (order_by_timestamp_elem ds) as Hin.
  destruct (order_by_timestamp ds) as [|[k0 m0] tl]; simpl in H; [discriminate|].
  injection H as ->. exists m0. split.
  - apply Hin. left.
  - intros k' m' Hk'. apply Hin in Hk'.
    apply elem_of_cons in Hk' as [E|Htl].
    + inversion E; subst. apply entry_le_refl.
    + apply StronglySorted_inv in Hs as [_ Hall].
      rewrite Forall_forall in Hall. apply Hall. exact Htl.
Qed.

Lemma first_key_some ds : count ds <> 0%nat -> is_Some (first_key ds).
Proof.
  intros H. unfold first_key.
  rewrite <- order_by_timestamp_length in H.
  destruct (order_by_timestamp ds); simpl in *; [congruence | eauto].
Qed.

Lemma count_delete_first ds k :
  first_key ds = Some k -> count (delete_key k ds) = pred (count ds).
Proof.
  intros H. apply first_key_oldest in H as (m & Hm & _).
  unfold count, delete_key. simpl.
  apply map_size_delete_Some. eauto.
Qed.

Lemma count_put t m ds : (count (put t m ds) <= S (count ds))%nat.
Proof.
  unfold count, put. simpl. rewrite map_size_insert.
  destruct (rows ds !! next_id ds); simpl; lia.
Qed.

Lemma history_put t m ds :
  history (put t m ds) = rows (put t m ds) :: history ds.
Proof. reflexivity. Qed.

Lemma history_delete_key k ds :
  history (delete_key k ds) = rows (delete_key k ds) :: history ds.
Proof. reflexivity. Qed.

Lemma count_text_pos s ds k m :
  rows ds !! k = Some m -> text m = s -> (0 < count_text s ds)%nat.
Proof.
  intros Hk Ht. unfold count_text.
  apply elem_of_map_to_list in Hk.
  assert (Hf : (k, m) ∈ filter (fun e : Z * Memory => text e.2 = s)
                         (map_to_list (rows ds))).
  { apply list_elem_of_filter. split; [exact Ht | exact Hk]. }
  destruct (filter _ _); [inversion Hf | simpl; lia].
Qed.

End NdbFacts.

(** ** Running the monad *)

Lemma bind_val {A B} (c : M A) (k : A -> M B) w a w' :
  c w = (Val a, w') -> bind c k w = k a w'.
Proof. unfold bind. intros ->. reflexivity. Qed.

Lemma bind_raise {A B} (c : M A) (k : A -> M B) w e w' :
  c w = (Raise e, w') -> bind c k w = (Raise e, w').
Proof. unfold bind. intros ->. reflexivity. Qed.

Lemma keeps_db_ret {A} (a : A) : keeps_db (ret a).
Proof. intros w. reflexivity. Qed.

Lemma keeps_db_raise {A} e : keeps_db (@raise A e).
Proof. intros w. reflexivity. Qed.

Lemma keeps_db_lift {A} (r : result A) : keeps_db (lift r).
Proof. intros w. destruct r; reflexivity. Qed.

Lemma keeps_db_bind {A B} (c : M A) (k : A -> M B) :
  keeps_db c -> (forall a, keeps_db (k a)) -> keeps_db (bind c k).
Proof.
  intros Hc Hk w. unfold bind. specialize (Hc w).
  destruct (c w) as [[a|e|] w1]; simpl in *; try exact Hc.
  rewrite Hk. exact Hc.
Qed.

Lemma keeps_db_try_except {A} (c h : M A) e :
  keeps_db c -> keeps_db h -> keeps_db (try_except c e h).
Proof.
  intros Hc Hh w. unfold try_except. specialize (Hc w).
  destruct (c w) as [[a|e'|] w1]; simpl in *; try exact Hc.
  destruct (decide (e' = e)); simpl; [rewrite Hh|]; exact Hc.
Qed.

Create HintDb keeps.
#[local] Hint Resolve keeps_db_ret keeps_db_raise keeps_db_lift : keeps.

(** ** The eviction loop *)

Lemma while_ten_memories_run fuel w :
  while_ten_memories (S (S fuel)) w = (Val tt, evicted w).
Proof.
  unfold evicted.
  cbn [while_ten_memories]. unfold bind at 1, get_world at 1.
  destruct (Ndb.count (db w) =? 10)%nat eqn:E; [|reflexivity].
  apply Nat.eqb_eq in E.
  destruct (NdbFacts.first_key_some (db w)) as [k Hk]; [lia|].
  rewrite Hk. unfold bind at 1, with_db at 1.
  unfold bind at 1, get_world at 1.
  cbn [db set_db].
  rewrite (NdbFacts.count_delete_first _ _ Hk), E. reflexivity.
Qed.

Lemma while_ten_memories_enough w :
  while_ten_memories (S (Ndb.count (db w))) w = (Val tt, evicted w).
Proof.
  destruct (Ndb.count (db w)) as [|n] eqn:E.
  - unfold evicted. cbn [while_ten_memories].
    unfold bind, get_world. rewrite E. reflexivity.
  - apply while_ten_memories_run.
Qed.

Lemma evicted_count_full w :
  Ndb.count (db w) = 10%nat -> Ndb.count (db (evicted w)) = 9%nat.
Proof.
  intros E. unfold evicted. rewrite E. simpl.
  destruct (NdbFacts.first_key_some (db w)) as [k Hk]; [lia|].
  rewrite Hk. cbn [db set_db].
  rewrite (NdbFacts.count_delete_first _ _ Hk), E. reflexivity.
Qed.

Lemma evicted_other w : Ndb.count (db w) <> 10%nat -> evicted w = w.
Proof.
  intros E. unfold evicted.
  destruct (Nat.eqb_spec (Ndb.count (db w)) 10); [contradiction | reflexivity].
Qed.

Lemma store_memory_run req t w :
  store_memory req t w =
    (Val (Redirect show_memories_endpoint),
     set_db (Ndb.put (now req) (Memory_create req t) (db (evicted w)))
       (evicted w)).
Proof.
  unfold store_memory. unfold bind at 1, get_world at 1.
  unfold bind at 1. rewrite while_ten_memories_enough. reflexivity.
Qed.

(** ** The views, step by step *)

Lemma checked_text_run cfg req w :
  checked_text cfg req w =
    let t := Py.strip (form_text req) in
    match validate cfg t (db w) with
    | Some payload => (Val (inl payload), w)
    | None =>
        match for_slash_commands (slash_commands cfg) t req w with
        | (Val (Return value), w') => (Val (inl value), w')
        | (Val (Fallthrough t'), w') =>
            match t' !! 0%nat with
            | None => (Raise IndexError, w')
            | Some c =>
                if bool_decide (c = slash) && Py.eqb t' t
                then (Val (inl (Status (lit "Invalid Slash Command") 400)), w')
                else (Val (inr t'), w')
            end
        | (Raise e, w') => (Raise e, w')
        | (Unfinished, w') => (Unfinished, w')
        end
    end.
Proof.
  unfold checked_text, bind, get_world. cbv zeta.
  destruct (validate cfg _ (db w)); [reflexivity|].
  destruct (for_slash_commands _ _ req w) as [[[t'|v]|e|] w'];
    try reflexivity.
  destruct (t' !! 0%nat); [|reflexivity].
  destruct (_ && _); reflexivity.
Qed.

Lemma new_memory_run cfg req w :
  new_memory cfg req w =
    match checked_text cfg req w with
    | (Val (inl value), w') => (Val value, w')
    | (Val (inr t), w') => store_memory req t w'
    | (Raise e, w') => (Raise e, w')
    | (Unfinished, w') => (Unfinished, w')
    end.
Proof.
  unfold new_memory, bind.
  destruct (checked_text cfg req w) as [[[v|t]|e|] w']; reflexivity.
Qed.

(** ** What the commands touch *)

Section Frames.

Variable cfg : config.

Lemma keeps_db_session_set v : keeps_db (session_set_deity v).
Proof. intros w. reflexivity. Qed.

Lemma keeps_db_session_pop : keeps_db session_pop_deity.
Proof. intros w. reflexivity. Qed.

Lemma keeps_db_flash m : keeps_db (flash m).
Proof. intros w. reflexivity. Qed.

Lemma keeps_db_login args req : keeps_db (SlashLogin_callback cfg args req).
Proof.
  unfold SlashLogin_callback.
  destruct args as [|a [|b args]]; auto with keeps.
  destruct (Py.eqb a (WHISPER_SECRET cfg)); auto with keeps.
  repeat (apply keeps_db_bind; intros);
    auto using keeps_db_session_set, keeps_db_flash with keeps.
Qed.

Lemma keeps_db_logout args req : keeps_db (SlashLogout_callback cfg args req).
Proof.
  unfold SlashLogout_callback.
  destruct args; auto with keeps.
  repeat (apply keeps_db_bind; intros);
    auto using keeps_db_session_pop, keeps_db_flash with keeps.
Qed.

Lemma keeps_db_danbooru args req :
  keeps_db (SlashDanbooru_callback cfg args req).
Proof.
  unfold SlashDanbooru_callback.
  apply keeps_db_bind; [auto with keeps|]. intros results.
  apply keeps_db_try_except; [|auto with keeps].
  apply keeps_db_bind; [auto with keeps|]. intros chosen.
  destruct (file_url chosen); auto with keeps.
Qed.

Lemma keeps_db_attempt cls text req :
  (forall args, keeps_db (callback cls args req)) ->
  keeps_db (attempt cls text req).
Proof.
  intros H. unfold attempt.
  destruct (Py.re_match_lit_spaces _ _); [|auto with keeps].
  apply keeps_db_bind; [apply H|]. intros; auto with keeps.
Qed.

Lemma keeps_db_for_slash_commands cmds text req :
  Forall (fun cls => forall args, keeps_db (callback cls args req)) cmds ->
  keeps_db (for_slash_commands cmds text req).
Proof.
  induction 1 as [|cls cmds Hcls _ IH]; simpl; [auto with keeps|].
  apply keeps_db_bind; [apply keeps_db_attempt, Hcls|].
  intros [[v|v]|]; auto with keeps.
Qed.

Lemma slash_commands_keep_db req :
  Forall (fun cls => forall args, keeps_db (callback cls args req))
    (slash_commands cfg).
Proof.
  repeat constructor; simpl; intros.
  - apply keeps_db_login.
  - apply keeps_db_logout.
  - apply keeps_db_danbooru.
Qed.

Lemma keeps_db_checked_text req : keeps_db (checked_text cfg req).
Proof.
  unfold checked_text. intros w.
  unfold bind at 1, get_world at 1.
  destruct (validate cfg _ (db w)); [reflexivity|].
  revert w. apply keeps_db_bind.
  - apply keeps_db_for_slash_commands, slash_commands_keep_db.
  - intros [t|r]; [|auto with keeps].
    destruct (t !! 0%nat); [|auto with keeps].
    destruct (_ && _); auto with keeps.
Qed.

End Frames.

(** ** Capacity and eviction *)

Lemma evicted_history w :
  Forall (fun r : gmap Z Memory => (size r <= 10)%nat) (Ndb.history (db w)) ->
  Forall (fun r : gmap Z Memory => (size r <= 10)%nat)
    (Ndb.history (db (evicted w))).
Proof.
  intros H. unfold evicted.
  destruct (Nat.eqb_spec (Ndb.count (db w)) 10) as [E|E]; [|exact H].
  destruct (Ndb.first_key (db w)) as [k|] eqn:Hk; [|exact H].
  cbn [db set_db]. rewrite NdbFacts.history_delete_key.
  constructor; [|exact H].
  change (Ndb.count (Ndb.delete_key k (db w)) <= 10)%nat.
  rewrite (NdbFacts.count_delete_first _ _ Hk). lia.
Qed.

Lemma evicted_below w :
  (Ndb.count (db w) <= 10)%nat -> (Ndb.count (db (evicted w)) < 10)%nat.
Proof.
  intros H. destruct (Nat.eq_dec (Ndb.count (db w)) 10) as [E|E].
  - rewrite (evicted_count_full _ E). lia.
  - rewrite (evicted_other _ E). lia.
Qed.

Lemma store_memory_within_capacity req t w :
  within_capacity (db w) -> within_capacity (db (store_memory req t w).2).
Proof.
  intros [Hc Hh]. rewrite store_memory_run. cbn [snd db set_db].
  pose proof (evicted_below _ Hc) as Hlt.
  pose proof (evicted_history _ Hh) as Hh'.
  pose proof (NdbFacts.count_put (now req) (Memory_create req t)
                (db (evicted w))) as Hp.
  split; [lia|].
  rewrite NdbFacts.history_put. constructor; [|exact Hh'].
  change (Ndb.count (Ndb.put (now req) (Memory_create req t)
                       (db (evicted w))) <= 10)%nat.
  lia.
Qed.

Lemma new_memory_within_capacity cfg req w :
  within_capacity (db w) -> within_capacity (db (new_memory cfg req w).2).
Proof.
  intros H. unfold new_memory, bind.
  pose proof (keeps_db_checked_text cfg req w) as Hdb.
  destruct (checked_text cfg req w) as [[[r|t]|e|] w1]; simpl in Hdb |- *;
    try (rewrite Hdb; exact H).
  apply store_memory_within_capacity. rewrite Hdb. exact H.
Qed.

Lemma new_memory_accepted cfg req w t w1 :
  checked_text cfg req w = (Val (inr t), w1) ->
  new_memory cfg req w =
    (Val (Redirect show_memories_endpoint),
     set_db (Ndb.put (now req) (Memory_create req t) (db (evicted w1)))
       (evicted w1)).
Proof.
  intros H. unfold new_memory. rewrite (bind_val _ _ _ _ _ H).
  apply store_memory_run.
Qed.

(** C1. Whatever requests [new_memory] serves, one after the other,
    from a datastore that holds at most ten memories: the datastore
    holds at most ten memories afterwards, and so does every row set
    that a write has produced on the way.  A submission that gets as far
    as being stored first runs the eviction loop to its end, which leaves
    fewer than ten memories, and only then puts the new one. *)
Theorem capacity_invariant cfg (reqs : list request) (w : world) :
  within_capacity (db w) ->
  within_capacity (db (serve cfg reqs w))
  /\ forall req t w0 w1,
       within_capacity (db w0) ->
       checked_text cfg req w0 = (Val (inr t), w1) ->
       exists w2,
         while_ten_memories (S (Ndb.count (db w1))) w1 = (Val tt, w2)
         /\ (Ndb.count (db w2) < 10)%nat
         /\ new_memory cfg req w0 =
              (Val (Redirect show_memories_endpoint),
               set_db (Ndb.put (now req) (Memory_create req t) (db w2)) w2).
Proof.
  intros H. split.
  - revert w H. induction reqs as [|req reqs IH]; intros w H; simpl.
    + exact H.
    + apply IH, new_memory_within_capacity, H.
  - intros req t w0 w1 [Hc _] Hch. exists (evicted w1).
    split; [apply while_ten_memories_enough|]. split.
    + apply evicted_below.
      pose proof (keeps_db_checked_text cfg req w0) as Hdb.
      rewrite Hch in Hdb. simpl in Hdb. rewrite Hdb. exact Hc.
    + apply new_memory_accepted, Hch.
Qed.

Lemma capacity_invariant_witness :
  within_capacity
    (db (serve sample_config
           [sample_request (lit "hello"); sample_request (lit "/login x");
            sample_request (lit "/danbooru cat"); sample_request (lit "again")]
           (sample_world 10))).
Proof.
  apply (capacity_invariant sample_config).
  split; [vm_compute; lia | constructor].
Defined.

(** C2. When the datastore holds exactly ten memories and a submission
    gets as far as being stored, the entity that the index on the
    timestamp lists first (smallest timestamp, smallest key among equal
    timestamps) is deleted, and nothing else is: the rows afterwards are
    the rows before without that key and with the new memory under the
    allocated id. *)
Theorem eviction_removes_oldest cfg req w t w1 :
  Ndb.count (db w) = 10%nat ->
  checked_text cfg req w = (Val (inr t), w1) ->
  exists k m w2 stored,
    Ndb.rows (db w) !! k = Some m
    /\ (forall k' m', Ndb.rows (db w) !! k' = Some m' ->
          Ndb.entry_le (k, m) (k', m'))
    /\ new_memory cfg req w = (Val (Redirect show_memories_endpoint), w2)
    /\ text stored = t
    /\ timestamp stored = Some (now req)
    /\ Ndb.rows (db w2)
       = <[Ndb.next_id (db w) := stored]> (delete k (Ndb.rows (db w)))
    /\ size (delete k (Ndb.rows (db w))) = 9%nat.
Proof.
  intros Hc Hch.
  pose proof (keeps_db_checked_text cfg req w) as Hdb.
  rewrite Hch in Hdb. simpl in Hdb.
  destruct (NdbFacts.first_key_some (db w)) as [k Hk]; [lia|].
  destruct (NdbFacts.first_key_oldest _ _ Hk) as (m & Hm & Hmin).
  assert (He : evicted w1 = set_db (Ndb.delete_key k (db w)) w1).
  { unfold evicted. rewrite Hdb, Hc, Hk. reflexivity. }
  exists k, m,
    (set_db (Ndb.put (now req) (Memory_create req t) (db (evicted w1)))
       (evicted w1)),
    {| timestamp := Some (now req); text := t;
       base64_image := base64_image (Memory_create req t) |}.
  split; [exact Hm|]. split; [exact Hmin|].
  split; [apply (new_memory_accepted _ _ _ _ _ Hch)|].
  rewrite He. do 3 (split; [reflexivity|]).
  pose proof (NdbFacts.count_delete_first _ _ Hk) as Hd.
  unfold Ndb.count in Hd, Hc. simpl in Hd. lia.
Qed.

Lemma eviction_removes_oldest_witness :
  exists k m w2 stored,
    Ndb.rows (db (sample_world 10)) !! k = Some m
    /\ (forall k' m', Ndb.rows (db (sample_world 10)) !! k' = Some m' ->
          Ndb.entry_le (k, m) (k', m'))
    /\ new_memory sample_config (sample_request (lit "hello")) (sample_world 10)
       = (Val (Redirect show_memories_endpoint), w2)
    /\ text stored = lit "hello"
    /\ timestamp stored = Some (now (sample_request (lit "hello")))
    /\ Ndb.rows (db w2)
       = <[Ndb.next_id (db (sample_world 10)) := stored]>
           (delete k (Ndb.rows (db (sample_world 10))))
    /\ size (delete k (Ndb.rows (db (sample_world 10)))) = 9%nat.
Proof.
  apply (eviction_removes_oldest sample_config
           (sample_request (lit "hello")) (sample_world 10)
           (lit "hello") (sample_world 10)).
  - vm_compute. reflexivity.
  - vm_compute. reflexivity.
Defined.

(** C7, as the code has it. The loop ends, within the tests it is
    given; from exactly ten memories it leaves nine; from any other
    number, more than ten included, its condition is false at once and
    it leaves the world as it was. *)
Theorem eviction_loop_at_capacity (w : world) :
  exists w',
    while_ten_memories (S (Ndb.count (db w))) w = (Val tt, w')
    /\ (Ndb.count (db w) = 10%nat -> Ndb.count (db w') = 9%nat)
    /\ (Ndb.count (db w) <> 10%nat -> w' = w).
Proof.
  exists (evicted w). split; [apply while_ten_memories_enough|].
  split; [apply evicted_count_full | apply evicted_other].
Qed.

(** C7, as stated, fails on a datastore that holds eleven memories: the
    loop deletes nothing. *)
Lemma eviction_loop_overfull :
  (10 <= Ndb.count (db (sample_world 11)))%nat
  /\ ~ (Ndb.count
          (db (while_ten_memories (S (Ndb.count (db (sample_world 11))))
                 (sample_world 11)).2) < 10)%nat.
Proof. vm_compute. split; lia. Qed.

(** ** Facts about the strings *)

Module PyFacts.
Import Py.

Lemma startswith_app p s : startswith p (p ++ s) = true.
Proof.
  induction p as [|c p IH]; simpl; [reflexivity|].
  rewrite bool_decide_eq_true_2 by reflexivity. exact IH.
Qed.

Lemma startswith_inv p s : startswith p s = true -> exists r, s = p ++ r.
Proof.
  revert s. induction p as [|c p IH]; intros s H; simpl in *.
  - exists s. reflexivity.
  - destruct s as [|d s]; [discriminate|].
    apply andb_true_iff in H as [Hc Hp].
    apply bool_decide_eq_true_1 in Hc as ->.
    destruct (IH _ Hp) as [r ->]. exists r. reflexivity.
Qed.

Lemma re_match_startswith p s :
  re_match_lit_spaces p s = None <-> startswith p s = false.
Proof.
  unfold re_match_lit_spaces. destruct (startswith p s); split; congruence.
Qed.

Lemma lower_app a b : lower (a ++ b) = lower a ++ lower b.
Proof. apply map_app. Qed.

Lemma rstrip_app p s : rstrip p = p -> rstrip (p ++ s) = p ++ rstrip s.
Proof.
  induction p as [|c p IH]; intros H; [reflexivity|].
  simpl in H |- *. destruct p as [|d p].
  - simpl in *. destruct (isspace c); [discriminate|].
    destruct (rstrip s); reflexivity.
  - destruct (rstrip (d :: p)) as [|e r] eqn:E.
    + destruct (isspace c); discriminate.
    + assert (Hr : e :: r = d :: p) by congruence.
      rewrite (IH Hr). reflexivity.
Qed.

Lemma rstrip_no_space s :
  forallb (fun c => negb (isspace c)) s = true -> rstrip s = s.
Proof.
  induction s as [|c s IH]; simpl; [reflexivity|].
  intros H. apply andb_true_iff in H as [Hc Hs]. rewrite (IH Hs).
  destruct s; [|reflexivity]. apply negb_true_iff in Hc. rewrite Hc. reflexivity.
Qed.

Lemma strip_no_space s :
  forallb (fun c => negb (isspace c)) s = true -> strip s = s.
Proof.
  intros H. unfold strip.
  assert (Hl : lstrip s = s).
  { destruct s as [|c s]; [reflexivity|]. simpl in *.
    apply andb_true_iff in H as [Hc _]. apply negb_true_iff in Hc.
    rewrite Hc. reflexivity. }
  rewrite Hl. apply rstrip_no_space, H.
Qed.

(** Stripping leaves a prefix alone that begins and ends with a
    character that is no whitespace. *)
Lemma strip_prefix c p s :
  isspace c = false -> rstrip (c :: p) = c :: p ->
  strip ((c :: p) ++ s) = (c :: p) ++ rstrip s.
Proof.
  intros Hc Hp. unfold strip.
  change (lstrip ((c :: p) ++ s)) with
    (if isspace c then lstrip (p ++ s) else (c :: p) ++ s).
  rewrite Hc. apply rstrip_app, Hp.
Qed.

Lemma strip_lower_strip_prefix c p s :
  isspace c = false -> rstrip (c :: p) = c :: p -> lower (c :: p) = c :: p ->
  exists r, strip (lower (strip ((c :: p) ++ s))) = (c :: p) ++ r.
Proof.
  intros Hc Hp Hl.
  rewrite (strip_prefix _ _ _ Hc Hp), lower_app, Hl.
  rewrite (strip_prefix _ _ _ Hc Hp). eexists. reflexivity.
Qed.

Lemma split_no_sep sep s :
  forallb (fun c => negb (bool_decide (c = sep))) s = true ->
  split sep s = [s].
Proof.
  induction s as [|c s IH]; simpl; [reflexivity|].
  intros H. apply andb_true_iff in H as [Hc Hs].
  apply negb_true_iff in Hc. rewrite Hc, (IH Hs). reflexivity.
Qed.

Lemma replace_from_absent old new s :
  contains old s = false -> replace_from 0 old new s = s.
Proof.
  induction s as [|c s IH]; simpl; [reflexivity|].
  intros H. apply orb_false_iff in H as [Hs Hc].
  change (match old with
          | [] => true
          | a :: p' => bool_decide (a = c) && startswith p' s
          end) with (startswith old (c :: s)).
  rewrite Hs, (IH Hc). reflexivity.
Qed.

Lemma replace_from_skip old new p s :
  replace_from (length p) old new (p ++ s) = replace_from 0 old new s.
Proof. induction p as [|c p IH]; simpl; [reflexivity | exact IH]. Qed.

Lemma replace_prefix c old new s :
  replace (c :: old) new ((c :: old) ++ s)
  = new ++ replace_from 0 (c :: old) new s.
Proof.
  unfold replace.
  change (replace_from 0 (c :: old) new ((c :: old) ++ s)) with
    (if startswith (c :: old) ((c :: old) ++ s)
     then new ++ replace_from (length (c :: old) - 1) (c :: old) new (old ++ s)
     else c :: replace_from 0 (c :: old) new (old ++ s)).
  rewrite startswith_app.
  replace (length (c :: old) - 1)%nat with (length old) by (simpl; lia).
  rewrite replace_from_skip. reflexivity.
Qed.

Lemma replace_from_cons_other old new c s :
  startswith old (c :: s) = false ->
  replace_from 0 old new (c :: s) = c :: replace_from 0 old new s.
Proof.
  intros H.
  change (replace_from 0 old new (c :: s)) with
    (if startswith old (c :: s)
     then new ++ replace_from (length old - 1) old new s
     else c :: replace_from 0 old new s).
  rewrite H. reflexivity.
Qed.

End PyFacts.

(** ** Dispatch *)

Lemma attempt_no_match cls text req :
  starts_with_command cls text = false -> attempt cls text req = ret None.
Proof.
  unfold starts_with_command, attempt. intros H.
  apply PyFacts.re_match_startswith in H. rewrite H. reflexivity.
Qed.

Lemma attempt_match cls text req :
  starts_with_command cls text = true ->
  attempt cls text req =
    bind (callback cls (args_of (pattern_of cls) (Py.strip (Py.lower text))) req)
      (fun r => ret (Some r)).
Proof.
  unfold starts_with_command, attempt, Py.re_match_lit_spaces.
  intros ->. reflexivity.
Qed.

Lemma attempt_none_iff cls text req w :
  (attempt cls text req w).1 = Val None
  <-> starts_with_command cls text = false.
Proof.
  destruct (starts_with_command cls text) eqn:E.
  - rewrite (attempt_match _ _ _ E). unfold bind, ret.
    destruct (callback cls _ req w) as [[r|e|] w']; simpl; split; congruence.
  - rewrite (attempt_no_match _ _ _ E). simpl. tauto.
Qed.

Lemma for_slash_commands_first cmds text req w :
  for_slash_commands cmds text req w =
    match first_command cmds text with
    | None => (Val (Fallthrough text), w)
    | Some cls =>
        loop_exit_of
          (callback cls (args_of (pattern_of cls) (Py.strip (Py.lower text)))
             req w)
    end.
Proof.
  induction cmds as [|cls cmds IH]; simpl; [reflexivity|].
  destruct (starts_with_command cls text) eqn:E.
  - rewrite (attempt_match _ _ _ E). unfold bind, ret.
    destruct (callback cls _ req w) as [[[v|v]|e|] w']; reflexivity.
  - rewrite (attempt_no_match _ _ _ E). unfold bind at 1, ret at 1.
    exact IH.
Qed.

(** C4, as the code has it. The commands are tried in the order login,
    logout, danbooru. [attempt] declines exactly when the lower-cased,
    trimmed text does not start with [/] and the name, whatever comes
    after the name. The loop ends with what the callback of the first
    command that the text starts with gives, on the world as it was,
    and runs no other callback; when the text starts with no command,
    it goes on unchanged. *)
Theorem dispatch_first_matching_command cfg (text : str) req w :
  map NAME (slash_commands cfg) = [lit "login"; lit "logout"; lit "danbooru"]
  /\ (forall cls,
        (attempt cls text req w).1 = Val None
        <-> starts_with_command cls text = false)
  /\ for_slash_commands (slash_commands cfg) text req w =
       match first_command (slash_commands cfg) text with
       | None => (Val (Fallthrough text), w)
       | Some cls =>
           loop_exit_of
             (callback cls
                (args_of (pattern_of cls) (Py.strip (Py.lower text))) req w)
       end.
Proof.
  split; [reflexivity|]. split.
  - intros cls. apply attempt_none_iff.
  - apply for_slash_commands_first.
Qed.

(** C4, as stated, fails on the text [/loginx]: other characters follow
    the name directly, and the login command runs all the same, with the
    argument [x]. *)
Lemma loginx_runs_login :
  spec_matches (SlashLogin sample_config) (lit "/loginx") = false
  /\ attempt (SlashLogin sample_config) (lit "/loginx")
       (sample_request (lit "/loginx")) (sample_world 0)
     = (Val (Some (Reply (Status (LOGIN_FAIL sample_config) 401))),
        sample_world 0)
  /\ new_memory sample_config (sample_request (lit "/loginx")) (sample_world 0)
     = (Val (Status (LOGIN_FAIL sample_config) 401), sample_world 0).
Proof. vm_compute. repeat split. Qed.

(** ** The login command *)

Section Login.

Variable cfg : config.

Lemma login_text_prefix s :
  exists r, Py.strip (Py.lower (Py.strip (login_text s))) = login_pattern ++ r.
Proof.
  unfold login_text, login_pattern.
  apply PyFacts.strip_lower_strip_prefix; reflexivity.
Qed.

Lemma login_text_starts s :
  starts_with_command (SlashLogin cfg) (Py.strip (login_text s)) = true.
Proof.
  unfold starts_with_command.
  destruct (login_text_prefix s) as [r ->]. apply PyFacts.startswith_app.
Qed.

Lemma first_command_login s :
  first_command (slash_commands cfg) (Py.strip (login_text s))
  = Some (SlashLogin cfg).
Proof.
  unfold first_command, slash_commands. cbn [List.find].
  rewrite login_text_starts. reflexivity.
Qed.

Lemma login_callback_no_memory args req w v :
  (SlashLogin_callback cfg args req w).1 <> Val (CreateMemory v).
Proof.
  unfold SlashLogin_callback.
  destruct args as [|a [|b args]]; try discriminate.
  destruct (Py.eqb a (WHISPER_SECRET cfg)); discriminate.
Qed.

Lemma checked_text_login_not_stored req w s t :
  form_text req = login_text s ->
  (checked_text cfg req w).1 <> Val (inr t).
Proof.
  intros Hf. unfold checked_text. rewrite Hf.
  unfold bind at 1, get_world at 1.
  destruct (validate cfg _ (db w)); [discriminate|].
  unfold bind. rewrite for_slash_commands_first, first_command_login.
  pose proof (login_callback_no_memory
    (args_of (pattern_of (SlashLogin cfg))
       (Py.strip (Py.lower (Py.strip (login_text s))))) req w) as Hn.
  cbn [callback SlashLogin].
  destruct (SlashLogin_callback cfg _ req w) as [[[v|r]|e|] w']; simpl;
    try discriminate.
  exfalso. exact (Hn v eq_refl).
Qed.

Lemma new_memory_not_stored req w :
  (forall t, (checked_text cfg req w).1 <> Val (inr t)) ->
  db (new_memory cfg req w).2 = db w.
Proof.
  intros H. unfold new_memory, bind.
  pose proof (keeps_db_checked_text cfg req w) as Hdb.
  destruct (checked_text cfg req w) as [[[r|t]|e|] w1]; simpl in *;
    try exact Hdb.
  exfalso. exact (H t eq_refl).
Qed.

Section Token.

Variable s : str.
Hypothesis Htoken : plain_token s = true.

Lemma plain_token_inv :
  s <> []
  /\ forallb (fun c => negb (Py.isspace c)) s = true
  /\ Py.lower s = s
  /\ Py.contains login_pattern s = false.
Proof.
  unfold plain_token in Htoken.
  repeat (apply andb_true_iff in Htoken as [Htoken ?]).
  repeat split.
  - destruct s; [discriminate | congruence].
  - assumption.
  - unfold Py.eqb in *. eapply bool_decide_eq_true_1. eassumption.
  - apply negb_true_iff. assumption.
Qed.

Lemma plain_token_strip : Py.strip (login_text s) = login_text s.
Proof.
  destruct plain_token_inv as (Hne & Hsp & _ & _).
  unfold login_text, login_pattern.
  rewrite PyFacts.strip_prefix by reflexivity.
  f_equal. simpl. rewrite (PyFacts.rstrip_no_space _ Hsp).
  destruct s; [contradiction | reflexivity].
Qed.

Lemma plain_token_lower : Py.lower (login_text s) = login_text s.
Proof.
  destruct plain_token_inv as (_ & _ & Hl & _).
  unfold login_text. rewrite PyFacts.lower_app.
  change (Py.lower (space :: s)) with (space :: Py.lower s).
  rewrite Hl. reflexivity.
Qed.

Lemma plain_token_no_space :
  forallb (fun c => negb (bool_decide (c = space))) s = true.
Proof.
  destruct plain_token_inv as (_ & Hsp & _ & _).
  apply forallb_forall. intros c Hc.
  rewrite forallb_forall in Hsp. specialize (Hsp c Hc).
  destruct (bool_decide_reflect (c = space)) as [->|]; [|reflexivity].
  discriminate Hsp.
Qed.

Lemma plain_token_args :
  args_of (pattern_of (SlashLogin cfg)) (login_text s) = [s].
Proof.
  destruct plain_token_inv as (Hne & Hsp & _ & Hc).
  unfold args_of.
  change (pattern_of (SlashLogin cfg)) with login_pattern.
  unfold login_text at 1, login_pattern at 1 2.
  rewrite PyFacts.replace_prefix. cbn [app].
  rewrite PyFacts.replace_from_cons_other by reflexivity.
  rewrite (PyFacts.replace_from_absent _ _ _ Hc).
  cbn [Py.split]. rewrite bool_decide_eq_true_2 by reflexivity.
  rewrite (PyFacts.split_no_sep _ _ plain_token_no_space).
  cbn [List.filter Py.strip Py.lstrip Py.rstrip truthy].
  rewrite (PyFacts.strip_no_space _ Hsp).
  destruct s as [|a s0]; [contradiction|].
  cbn [truthy map]. rewrite (PyFacts.strip_no_space _ Hsp). reflexivity.
Qed.

Lemma checked_text_login_token req w :
  form_text req = login_text s ->
  validate cfg (login_text s) (db w) = None ->
  checked_text cfg req w =
    match SlashLogin_callback cfg [s] req w with
    | (Val (CreateMemory v), w') => (Raise TypeError, w')
    | (Val (Reply r), w') => (Val (inl r), w')
    | (Raise e, w') => (Raise e, w')
    | (Unfinished, w') => (Unfinished, w')
    end.
Proof.
  intros Hf Hv. unfold checked_text. rewrite Hf, plain_token_strip.
  unfold bind at 1, get_world at 1. rewrite Hv.
  unfold bind. rewrite for_slash_commands_first.
  rewrite <- plain_token_strip at 1. rewrite first_command_login.
  rewrite plain_token_lower, plain_token_strip, plain_token_args.
  cbn [callback SlashLogin].
  pose proof (login_callback_no_memory [s] req w) as Hn.
  destruct (SlashLogin_callback cfg [s] req w) as [[[v|r]|e|] w']; simpl;
    try reflexivity.
  exfalso. exact (Hn v eq_refl).
Qed.

End Token.

End Login.

(** C3, as the code has it. Whatever [s] is, the text [/login s] leaves
    the datastore as it is: no memory is created from it. When the text
    passes validation and [s] is one plain token, the callback gets [s]:
    if [s] is the secret, the session's [deity] becomes [True], the
    greeting is flashed and the redirect to the listing is returned;
    if it is not, the 401 with the configured message is returned and
    the world is left as it was. *)
Theorem login_command cfg req w s :
  form_text req = login_text s ->
  db (new_memory cfg req w).2 = db w
  /\ (plain_token s = true ->
      validate cfg (login_text s) (db w) = None ->
      (s = WHISPER_SECRET cfg ->
       new_memory cfg req w =
         (Val (Redirect show_memories_endpoint),
          {| db := db w; deity := Some true;
             flashes := flashes w ++ [DEITY_GREET cfg] |}))
      /\ (s <> WHISPER_SECRET cfg ->
          new_memory cfg req w = (Val (Status (LOGIN_FAIL cfg) 401), w))).
Proof.
  intros Hf. split.
  - apply new_memory_not_stored. intros t.
    apply (checked_text_login_not_stored cfg req w s t Hf).
  - intros Htok Hv.
    pose proof (checked_text_login_token cfg s Htok req w Hf Hv) as Hch.
    unfold SlashLogin_callback, Py.eqb in Hch. split; intros Hs.
    + rewrite bool_decide_eq_true_2 in Hch by exact Hs.
      unfold new_memory, bind at 1. rewrite Hch. reflexivity.
    + rewrite bool_decide_eq_false_2 in Hch by exact Hs.
      unfold new_memory, bind at 1. rewrite Hch. reflexivity.
Qed.

Lemma login_command_witness :
  new_memory sample_config (sample_request (login_text (lit "sesame")))
    (sample_world 3)
  = (Val (Redirect show_memories_endpoint),
     {| db := db (sample_world 3); deity := Some true;
        flashes := flashes (sample_world 3) ++ [DEITY_GREET sample_config] |})
  /\ new_memory sample_config (sample_request (login_text (lit "guess")))
       (sample_world 3)
     = (Val (Status (LOGIN_FAIL sample_config) 401), sample_world 3).
Proof.
  split.
  - apply (login_command sample_config
             (sample_request (login_text (lit "sesame"))) (sample_world 3)
             (lit "sesame")); reflexivity.
  - apply (login_command sample_config
             (sample_request (login_text (lit "guess"))) (sample_world 3)
             (lit "guess")); [reflexivity | reflexivity | reflexivity |].
    discriminate.
Defined.

(** C3, as stated, fails on an attempt of two words: the text
    [/login wrong guess] gives the callback two arguments, and what
    reaches the caller is the [TypeError], not the 401. *)
Lemma login_two_words_raises :
  lit "wrong guess" <> WHISPER_SECRET sample_config
  /\ new_memory sample_config
       (sample_request (login_text (lit "wrong guess"))) (sample_world 0)
     = (Raise TypeError, sample_world 0).
Proof. split; [discriminate | vm_compute; reflexivity]. Qed.

(** ** Validation and the slash check *)

Lemma new_memory_rejected cfg req w payload :
  validate cfg (Py.strip (form_text req)) (db w) = Some payload ->
  new_memory cfg req w = (Val payload, w).
Proof.
  intros H. rewrite new_memory_run, checked_text_run. cbv zeta.
  rewrite H. reflexivity.
Qed.

Lemma validate_none_nonempty cfg t ds : validate cfg t ds = None -> t <> [].
Proof. intros H ->. discriminate H. Qed.

(** What [new_memory] does once the text is valid and the first command
    it starts with has answered without asking for a memory. *)
Lemma new_memory_first_command cfg req w cls :
  validate cfg (Py.strip (form_text req)) (db w) = None ->
  first_command (slash_commands cfg) (Py.strip (form_text req)) = Some cls ->
  forall w',
    (forall r,
       callback cls
         (args_of (pattern_of cls)
            (Py.strip (Py.lower (Py.strip (form_text req))))) req w
       = (Val (Reply r), w') ->
       new_memory cfg req w = (Val r, w'))
    /\ (forall e,
          callback cls
            (args_of (pattern_of cls)
               (Py.strip (Py.lower (Py.strip (form_text req))))) req w
          = (Raise e, w') ->
          new_memory cfg req w = (Raise e, w')).
Proof.
  intros Hv Hc w'.
  assert (Hloop : for_slash_commands (slash_commands cfg)
                    (Py.strip (form_text req)) req w
                  = loop_exit_of
                      (callback cls
                         (args_of (pattern_of cls)
                            (Py.strip (Py.lower (Py.strip (form_text req)))))
                         req w)).
  { rewrite for_slash_commands_first, Hc. reflexivity. }
  split; intros x Hcb; rewrite Hcb in Hloop; cbn [loop_exit_of] in Hloop;
    rewrite new_memory_run, checked_text_run; cbv zeta;
    rewrite Hv, Hloop; reflexivity.
Qed.

(** C5, as the code has it. A text that, trimmed, is empty, longer than
    MAX_CHARACTERS or the text of a stored memory is answered with a 400
    before any command is looked at, whatever the text starts with, and
    the world is left as it was. The message is the fixed [Too short!]
    for the empty text, the configured ERROR_TOO_LONG for the long one
    and the configured ERROR_UNORIGINAL for the repeated one; the checks
    are made in this order. *)
Theorem validation_rejects_first cfg req w :
  let t := Py.strip (form_text req) in
  (t = []
   \/ Z.of_nat (length t) > MAX_CHARACTERS cfg
   \/ exists k m, Ndb.rows (db w) !! k = Some m /\ text m = t) ->
  new_memory cfg req w =
    (Val (Status
            (if decide (t = []) then lit "Too short!"
             else if decide (Z.of_nat (length t) > MAX_CHARACTERS cfg)
                  then ERROR_TOO_LONG cfg
                  else ERROR_UNORIGINAL cfg)
            400),
     w).
Proof.
  intros t H. apply new_memory_rejected. fold t. unfold validate.
  destruct (decide (t = [])) as [E|E].
  - rewrite E. reflexivity.
  - destruct (Nat.eqb_spec (length t) 0) as [E0|_].
    { destruct t; [contradiction | discriminate]. }
    destruct (decide (Z.of_nat (length t) > MAX_CHARACTERS cfg)) as [L|L].
    + rewrite (proj2 (Z.gtb_gt _ _)) by lia. reflexivity.
    + destruct (Z.gtb_spec (Z.of_nat (length t)) (MAX_CHARACTERS cfg));
        [lia|].
      destruct H as [H|[H|(k & m & Hk & Ht)]]; [contradiction | lia |].
      pose proof (NdbFacts.count_text_pos _ _ _ _ Hk Ht) as Hpos.
      rewrite (proj2 (Nat.ltb_lt _ _) Hpos). reflexivity.
Qed.

Lemma validation_rejects_first_witness :
  new_memory sample_config (sample_request (lit "  c ")) (sample_world 10)
  = (Val (Status (ERROR_UNORIGINAL sample_config) 400), sample_world 10).
Proof.
  apply (validation_rejects_first sample_config
           (sample_request (lit "  c ")) (sample_world 10)).
  right. right. exists 3, (sample_memory 3 "c").
  split; reflexivity.
Defined.

(** C5, as stated, fails on an empty text: the message of the 400 is
    none of the configured ones. *)
Lemma too_short_message_not_configured :
  new_memory sample_config (sample_request (lit "   ")) (sample_world 0)
  = (Val (Status (lit "Too short!") 400), sample_world 0)
  /\ ~ In (lit "Too short!") (configured_messages sample_config).
Proof.
  split; [vm_compute; reflexivity|].
  simpl. intros H. repeat (destruct H as [H|H]; [discriminate H|]). exact H.
Qed.

(** C6, as the code has it. A text that passes validation, starts with
    [/] and starts with no command is answered with the 400
    [Invalid Slash Command], and the world is left as it was: no memory
    is created. *)
Theorem slash_check_rejects cfg req w rest :
  Py.strip (form_text req) = slash :: rest ->
  validate cfg (slash :: rest) (db w) = None ->
  first_command (slash_commands cfg) (slash :: rest) = None ->
  new_memory cfg req w
  = (Val (Status (lit "Invalid Slash Command") 400), w).
Proof.
  intros Ht Hv Hc. rewrite new_memory_run, checked_text_run. cbv zeta.
  rewrite Ht, Hv, for_slash_commands_first, Hc.
  cbn [lookup list_lookup]. unfold Py.eqb.
  rewrite !bool_decide_eq_true_2 by reflexivity. reflexivity.
Qed.

Lemma slash_check_rejects_witness :
  new_memory sample_config (sample_request (lit "/bogus hello"))
    (sample_world 10)
  = (Val (Status (lit "Invalid Slash Command") 400), sample_world 10).
Proof.
  apply (slash_check_rejects sample_config
           (sample_request (lit "/bogus hello")) (sample_world 10)
           (lit "bogus hello")); reflexivity.
Defined.

(** C6, as stated, fails on a text of 141 characters that starts with
    [/] and with no command: validation answers first, with the
    message for a text that is too long. *)
Lemma long_slash_text_too_long :
  first_command (slash_commands sample_config) (slash :: repeat "x"%char 140)
  = None
  /\ new_memory sample_config (sample_request (slash :: repeat "x"%char 140))
       (sample_world 0)
     = (Val (Status (ERROR_TOO_LONG sample_config) 400), sample_world 0)
  /\ ERROR_TOO_LONG sample_config <> lit "Invalid Slash Command".
Proof. vm_compute. repeat split. discriminate. Qed.

(** ** The danbooru command *)

Lemma random_choice_at {A} (seq : list A) (d : nat) (x : A) :
  seq !! d = Some x -> random_choice d seq = Ok x.
Proof.
  intros H. pose proof (lookup_lt_Some _ _ _ H) as Hlt.
  unfold random_choice. destruct seq as [|y seq]; [discriminate H|].
  rewrite Nat.mod_small by exact Hlt. rewrite H. reflexivity.
Qed.

Lemma random_choice_nonempty {A} (seq : list A) (d : nat) :
  seq <> [] ->
  exists x, seq !! (d mod length seq)%nat = Some x /\ random_choice d seq = Ok x.
Proof.
  intros Hne. destruct seq as [|y seq]; [contradiction|].
  assert (Hlt : (d mod length (y :: seq) < length (y :: seq))%nat).
  { apply Nat.mod_upper_bound. discriminate. }
  destruct (lookup_lt_is_Some_2 _ _ Hlt) as [x Hx].
  exists x. split; [exact Hx|].
  unfold random_choice. rewrite Hx. reflexivity.
Qed.

Lemma danbooru_callback_run cfg args req w :
  SlashDanbooru_callback cfg args req w =
    match danbooru_posts req (Py.join [space] args) with
    | Err e => (Raise e, w)
    | Ok results =>
        match random_choice (random_draw req) results with
        | Err e =>
            if decide (e = IndexError)
            then (Val (Reply (Status (ERROR_DANBOORU cfg) 400)), w)
            else (Raise e, w)
        | Ok chosen =>
            match file_url chosen with
            | None => (Raise KeyError, w)
            | Some url => (Val (CreateMemory (danbooru_host ++ url)), w)
            end
        end
    end.
Proof.
  unfold SlashDanbooru_callback, bind at 1, lift at 1.
  destruct (danbooru_posts req _) as [results|e]; [|reflexivity].
  unfold try_except, bind, lift.
  destruct (random_choice (random_draw req) results) as [chosen|e].
  - destruct (file_url chosen); reflexivity.
  - destruct (decide (e = IndexError)); reflexivity.
Qed.

(** C8. When the search gives no post, the callback answers with the
    400 and the configured message, and leaves the world as it was.
    When it gives posts, the callback takes the one at the drawn
    position, and the memory to create is the host followed by that
    post's file_url; the world is as it was. The positions are drawn
    evenly: the draws 0 .. n-1 take the n posts, one each, and every
    other draw counts as its remainder by n. *)
Theorem danbooru_outcomes cfg args req w results :
  danbooru_posts req (Py.join [space] args) = Ok results ->
  (results = [] ->
   SlashDanbooru_callback cfg args req w
   = (Val (Reply (Status (ERROR_DANBOORU cfg) 400)), w))
  /\ (results <> [] ->
      exists chosen,
        results !! (random_draw req mod length results)%nat = Some chosen
        /\ forall url,
             file_url chosen = Some url ->
             SlashDanbooru_callback cfg args req w
             = (Val (CreateMemory (danbooru_host ++ url)), w))
  /\ (forall d chosen,
        results !! d = Some chosen -> random_choice d results = Ok chosen)
  /\ (forall d,
        random_choice d results
        = random_choice (d mod length results) results).
Proof.
  intros Hs. split; [|split; [|split]].
  - intros ->. rewrite danbooru_callback_run, Hs. reflexivity.
  - intros Hne.
    destruct (random_choice_nonempty results (random_draw req) Hne)
      as (chosen & Hl & Hc).
    exists chosen. split; [exact Hl|]. intros url Hu.
    rewrite danbooru_callback_run, Hs, Hc, Hu. reflexivity.
  - intros d chosen. apply random_choice_at.
  - intros d. unfold random_choice. destruct results as [|y l]; [reflexivity|].
    rewrite Nat.Div0.mod_mod. reflexivity.
Qed.

Lemma danbooru_outcomes_witness :
  exists chosen,
    [{| file_url := Some (lit "/data/a.jpg") |}]
      !! (random_draw (sample_request (lit "/danbooru cat")) mod 1)%nat
    = Some chosen
    /\ forall url,
         file_url chosen = Some url ->
         SlashDanbooru_callback sample_config [lit "cat"]
           (sample_request (lit "/danbooru cat")) (sample_world 0)
         = (Val (CreateMemory (danbooru_host ++ url)), sample_world 0).
Proof.
  apply (danbooru_outcomes sample_config [lit "cat"]
           (sample_request (lit "/danbooru cat")) (sample_world 0)
           [{| file_url := Some (lit "/data/a.jpg") |}]).
  - reflexivity.
  - discriminate.
Defined.

(** ** Failing callbacks and the slash check *)

Lemma first_command_in cmds text cls :
  first_command cmds text = Some cls -> In cls cmds.
Proof. intros H. apply find_some in H. tauto. Qed.

(** C9. When the text is valid and the callback of the command that
    runs raises, [attempt] raises the same and so does [new_memory]:
    nothing turns the exception into a response, and the datastore is
    as it was. *)
Theorem command_failure_propagates cfg req w cls e w' :
  validate cfg (Py.strip (form_text req)) (db w) = None ->
  first_command (slash_commands cfg) (Py.strip (form_text req)) = Some cls ->
  callback cls
    (args_of (pattern_of cls) (Py.strip (Py.lower (Py.strip (form_text req)))))
    req w
  = (Raise e, w') ->
  attempt cls (Py.strip (form_text req)) req w = (Raise e, w')
  /\ new_memory cfg req w = (Raise e, w')
  /\ db w' = db w.
Proof.
  intros Hv Hc Hcb. split; [|split].
  - apply find_some in Hc as [_ Hm].
    rewrite (attempt_match _ _ _ Hm). apply bind_raise, Hcb.
  - apply (new_memory_first_command cfg req w cls Hv Hc w'), Hcb.
  - pose proof (slash_commands_keep_db cfg req) as Hk.
    rewrite Forall_forall in Hk.
    apply first_command_in, list_elem_of_In in Hc.
    pose proof (Hk cls Hc
      (args_of (pattern_of cls)
         (Py.strip (Py.lower (Py.strip (form_text req))))) w) as Hw.
    rewrite Hcb in Hw. exact Hw.
Qed.

Lemma command_failure_propagates_witness :
  attempt (SlashLogin sample_config) (Py.strip (lit "/login"))
    (sample_request (lit "/login")) (sample_world 10)
  = (Raise TypeError, sample_world 10)
  /\ new_memory sample_config (sample_request (lit "/login")) (sample_world 10)
     = (Raise TypeError, sample_world 10)
  /\ db (sample_world 10) = db (sample_world 10).
Proof.
  apply (command_failure_propagates sample_config
           (sample_request (lit "/login")) (sample_world 10)
           (SlashLogin sample_config) TypeError (sample_world 10));
    reflexivity.
Defined.

Lemma logout_callback_no_memory cfg args req w v :
  (SlashLogout_callback cfg args req w).1 <> Val (CreateMemory v).
Proof. unfold SlashLogout_callback. destruct args; discriminate. Qed.

Lemma danbooru_callback_memory cfg args req w v w' :
  SlashDanbooru_callback cfg args req w = (Val (CreateMemory v), w') ->
  exists url, v = danbooru_host ++ url.
Proof.
  rewrite danbooru_callback_run.
  destruct (danbooru_posts req _) as [results|e]; [|discriminate].
  destruct (random_choice _ results) as [chosen|e].
  - destruct (file_url chosen) as [url|]; [|discriminate].
    intros [= <- _]. exists url. reflexivity.
  - destruct (decide (e = IndexError)); discriminate.
Qed.

(** C10. When the text is valid, the text that the loop over the
    commands hands on has a first character: it is the valid text
    itself, which is not empty, or the host of danbooru followed by a
    file_url. So the slash check reads [memory_text[0]] in range, and
    [new_memory] goes through it without an IndexError. *)
Theorem slash_check_index_in_range cfg req w t' w' :
  validate cfg (Py.strip (form_text req)) (db w) = None ->
  for_slash_commands (slash_commands cfg) (Py.strip (form_text req)) req w
  = (Val (Fallthrough t'), w') ->
  (exists c, t' !! 0%nat = Some c)
  /\ exists r, checked_text cfg req w = (Val r, w').
Proof.
  intros Hv Hloop.
  assert (Hc : exists c, t' !! 0%nat = Some c).
  { rewrite for_slash_commands_first in Hloop.
    destruct (first_command _ _) as [cls|] eqn:Hf.
    - apply first_command_in in Hf. simpl in Hf.
      destruct Hf as [<-|[<-|[<-|[]]]]; cbn [callback SlashLogin SlashLogout
        SlashDanbooru] in Hloop.
      + pose proof (login_callback_no_memory cfg
          (args_of (pattern_of (SlashLogin cfg))
             (Py.strip (Py.lower (Py.strip (form_text req))))) req w) as Hn.
        destruct (SlashLogin_callback cfg _ req w) as [[[v|r]|e|] w1];
          simpl in Hloop; try discriminate.
        exfalso. exact (Hn v eq_refl).
      + pose proof (logout_callback_no_memory cfg
          (args_of (pattern_of (SlashLogout cfg))
             (Py.strip (Py.lower (Py.strip (form_text req))))) req w) as Hn.
        destruct (SlashLogout_callback cfg _ req w) as [[[v|r]|e|] w1];
          simpl in Hloop; try discriminate.
        exfalso. exact (Hn v eq_refl).
      + destruct (SlashDanbooru_callback cfg _ req w) as [[[v|r]|e|] w1] eqn:Hd;
          simpl in Hloop; try discriminate.
        injection Hloop as <- <-.
        destruct (danbooru_callback_memory _ _ _ _ _ _ Hd) as [url ->].
        eexists. reflexivity.
    - injection Hloop as <- <-.
      apply validate_none_nonempty in Hv.
      destruct (Py.strip (form_text req)) as [|c t]; [contradiction|].
      exists c. reflexivity. }
  split; [exact Hc|]. destruct Hc as [c Hc].
  rewrite checked_text_run. cbv zeta. rewrite Hv, Hloop, Hc.
  destruct (_ && _); eexists; reflexivity.
Qed.

Lemma slash_check_index_in_range_witness :
  (exists c, (danbooru_host ++ lit "/data/a.jpg") !! 0%nat = Some c)
  /\ exists r,
       checked_text sample_config (sample_request (lit "/danbooru cat"))
         (sample_world 10)
       = (Val r, sample_world 10).
Proof.
  apply (slash_check_index_in_range sample_config
           (sample_request (lit "/danbooru cat")) (sample_world 10)
           (danbooru_host ++ lit "/data/a.jpg") (sample_world 10));
    reflexivity.
Defined.

(** ** Termination *)

Section Finishes.

Variable cfg : config.

Lemma finishes_ret {A} (a : A) : finishes (ret a).
Proof. intros w. discriminate. Qed.

Lemma finishes_raise {A} e : finishes (@raise A e).
Proof. intros w. discriminate. Qed.

Lemma finishes_lift {A} (r : result A) : finishes (lift r).
Proof. intros w. destruct r; discriminate. Qed.

Lemma finishes_bind {A B} (c : M A) (k : A -> M B) :
  finishes c -> (forall a, finishes (k a)) -> finishes (bind c k).
Proof.
  intros Hc Hk w. unfold bind. specialize (Hc w).
  destruct (c w) as [[a|e|] w1]; simpl in *;
    [apply Hk | discriminate | contradiction].
Qed.

Lemma finishes_try_except {A} (c h : M A) e :
  finishes c -> finishes h -> finishes (try_except c e h).
Proof.
  intros Hc Hh w. unfold try_except. specialize (Hc w).
  destruct (c w) as [[a|e'|] w1]; simpl in *;
    [discriminate | | exact Hc].
  destruct (decide (e' = e)); [apply Hh | discriminate].
Qed.

#[local] Hint Resolve finishes_ret finishes_raise finishes_lift : keeps.

Lemma slash_commands_finish req :
  Forall (fun cls => forall args, finishes (callback cls args req))
    (slash_commands cfg).
Proof.
  repeat constructor; simpl; intros args.
  - unfold SlashLogin_callback.
    destruct args as [|a [|b args]]; auto with keeps.
    destruct (Py.eqb a (WHISPER_SECRET cfg)); auto with keeps.
    repeat (apply finishes_bind; intros); auto with keeps;
      intros w; discriminate.
  - unfold SlashLogout_callback. destruct args; auto with keeps.
    repeat (apply finishes_bind; intros); auto with keeps;
      intros w; discriminate.
  - unfold SlashDanbooru_callback.
    apply finishes_bind; [auto with keeps|]. intros results.
    apply finishes_try_except; [|auto with keeps].
    apply finishes_bind; [auto with keeps|]. intros chosen.
    destruct (file_url chosen); auto with keeps.
Qed.

Lemma finishes_for_slash_commands cmds text req :
  Forall (fun cls => forall args, finishes (callback cls args req)) cmds ->
  finishes (for_slash_commands cmds text req).
Proof.
  induction 1 as [|cls cmds Hcls _ IH]; simpl; [auto with keeps|].
  apply finishes_bind.
  - unfold attempt. destruct (Py.re_match_lit_spaces _ _); [|auto with keeps].
    apply finishes_bind; [apply Hcls|]. intros; auto with keeps.
  - intros [[v|v]|]; auto with keeps.
Qed.

(** [new_memory] ends on every request and in every world: the loop
    over the memories is given tests enough. *)
Lemma new_memory_finishes req : finishes (new_memory cfg req).
Proof.
  intros w. rewrite new_memory_run.
  pose proof (finishes_for_slash_commands (slash_commands cfg)
                (Py.strip (form_text req)) req
                (slash_commands_finish req) w) as Hf.
  rewrite checked_text_run. cbv zeta.
  destruct (validate cfg _ (db w)); [discriminate|].
  destruct (for_slash_commands _ _ req w) as [[[t'|v]|e|] w'];
    simpl in Hf |- *; try discriminate; [|contradiction].
  destruct (t' !! 0%nat); [|discriminate].
  destruct (_ && _); [discriminate|].
  rewrite store_memory_run. discriminate.
Qed.

End Finishes.

(** ** The functions on sample inputs *)

Example strip_ex : Py.strip (lit "  /Login  a b ") = lit "/Login  a b".
Proof. reflexivity. Qed.

Example lower_ex : Py.lower (lit "/LoGin A_b1") = lit "/login a_b1".
Proof. reflexivity. Qed.

Example replace_ex :
  Py.replace (lit "/login") [] (lit "/login a/loginb") = lit " ab".
Proof. reflexivity. Qed.

Example replace_overlap_ex :
  Py.replace (lit "aa") (lit "b") (lit "aaaxaa") = lit "baxb".
Proof. reflexivity. Qed.

Example split_ex :
  Py.split space (lit " a  b") = [lit ""; lit "a"; lit ""; lit "b"].
Proof. reflexivity. Qed.

Example join_ex : Py.join [space] [lit "a"; lit "b"] = lit "a b".
Proof. reflexivity. Qed.

Example args_ex :
  args_of (lit "/danbooru") (lit "/danbooru  goo_girl   solo ")
  = [lit "goo_girl"; lit "solo"].
Proof. reflexivity. Qed.

Example match_ex :
  Py.re_match_lit_spaces (lit "/login") (lit "/login  x") = Some 8%nat.
Proof. reflexivity. Qed.

Example first_key_ex : Ndb.first_key (db (sample_world 10)) = Some 2.
Proof. vm_compute. reflexivity. Qed.

(** The request of [tests.py]: [/danbooru goo_girl] ends in the redirect
    to the listing, with the image's address stored as a memory. *)
Example test_new_memory :
  let r := new_memory sample_config (sample_request (lit "/danbooru goo_girl"))
             (sample_world 0) in
  r.1 = Val (Redirect show_memories_endpoint)
  /\ text <$> Ndb.rows (db r.2) !! 12
     = Some (lit "http://danbooru.donmai.us/data/a.jpg").
Proof. vm_compute. split; reflexivity. Qed.

Example logout_ex :
  new_memory sample_config (sample_request (lit "/logout"))
    {| db := db (sample_world 2); deity := Some true; flashes := [] |}
  = (Val (Redirect show_memories_endpoint),
     {| db := db (sample_world 2); deity := None;
        flashes := [DEITY_GOODBYE sample_config] |}).
Proof. vm_compute. reflexivity. Qed.

(** * Further properties *)

(** ** Characters *)

Lemma lower_char_slash c : Py.lower_char c = slash -> c = slash.
Proof.
  destruct c as [[] [] [] [] [] [] [] []]; vm_compute; intros H;
    first [reflexivity | discriminate H].
Qed.

Lemma lower_char_space c : Py.isspace (Py.lower_char c) = Py.isspace c.
Proof. destruct c as [[] [] [] [] [] [] [] []]; vm_compute; reflexivity. Qed.

Lemma lower_char_lower_char c :
  Py.lower_char (Py.lower_char c) = Py.lower_char c.
Proof. destruct c as [[] [] [] [] [] [] [] []]; vm_compute; reflexivity. Qed.

(** ** More on stripping *)

Module StripFacts.
Import Py.

Lemma lstrip_head s c r : lstrip s = c :: r -> isspace c = false.
Proof.
  induction s as [|d s IH]; simpl; [discriminate|].
  destruct (isspace d) eqn:E; [exact IH|].
  intros [= <- _]. exact E.
Qed.

Lemma rstrip_head s c r : rstrip s = c :: r -> exists s', s = c :: s'.
Proof.
  destruct s as [|d s]; simpl; [discriminate|].
  destruct (rstrip s); [destruct (isspace d)|]; intros [= <- _]; eauto.
Qed.

Lemma strip_head s c r : strip s = c :: r -> isspace c = false.
Proof.
  unfold strip. intros H. destruct (rstrip_head _ _ _ H) as [s' Hs].
  exact (lstrip_head _ _ _ Hs).
Qed.

Lemma rstrip_cons_nonspace c s :
  isspace c = false -> exists r, rstrip (c :: s) = c :: r.
Proof.
  intros Hc. simpl. rewrite Hc. destruct (rstrip s); eauto.
Qed.

Lemma strip_cons_nonspace c s :
  isspace c = false -> exists r, strip (c :: s) = c :: r.
Proof.
  intros Hc. unfold strip. simpl. rewrite Hc.
  apply rstrip_cons_nonspace, Hc.
Qed.

Lemma rstrip_rstrip s : rstrip (rstrip s) = rstrip s.
Proof.
  induction s as [|c s IH]; [reflexivity|].
  simpl. destruct (rstrip s) as [|d r] eqn:E.
  - destruct (isspace c) eqn:Hc; simpl; [reflexivity|]. rewrite Hc. reflexivity.
  - change (rstrip (c :: d :: r)) with
      (match rstrip (d :: r) with
       | [] => if isspace c then [] else [c]
       | r' => c :: r'
       end).
    rewrite IH. reflexivity.
Qed.

Lemma strip_strip s : strip (strip s) = strip s.
Proof.
  destruct (strip s) as [|c r] eqn:E; [reflexivity|].
  pose proof (strip_head _ _ _ E) as Hc.
  unfold strip at 1. simpl lstrip. rewrite Hc.
  rewrite <- E. unfold strip. apply rstrip_rstrip.
Qed.

Lemma lstrip_lower s : lstrip (lower s) = lower (lstrip s).
Proof.
  induction s as [|c s IH]; [reflexivity|].
  simpl. rewrite lower_char_space. destruct (isspace c); [exact IH | reflexivity].
Qed.

Lemma rstrip_lower s : rstrip (lower s) = lower (rstrip s).
Proof.
  induction s as [|c s IH]; [reflexivity|].
  simpl. fold (lower s). rewrite IH, lower_char_space.
  destruct (rstrip s); [destruct (isspace c)|]; reflexivity.
Qed.

Lemma strip_lower s : strip (lower s) = lower (strip s).
Proof. unfold strip. rewrite lstrip_lower, rstrip_lower. reflexivity. Qed.

Lemma lower_lower s : lower (lower s) = lower s.
Proof.
  unfold lower. rewrite map_map. apply map_ext. intros c.
  apply lower_char_lower_char.
Qed.

Lemma Forall_lstrip (P : ascii -> Prop) s : Forall P s -> Forall P (lstrip s).
Proof.
  induction 1 as [|c s Hc Hs IH]; simpl; [constructor|].
  destruct (isspace c); [exact IH | constructor; assumption].
Qed.

Lemma Forall_rstrip (P : ascii -> Prop) s : Forall P s -> Forall P (rstrip s).
Proof.
  induction 1 as [|c s Hc Hs IH]; simpl; [constructor|].
  destruct (rstrip s) as [|d r].
  - destruct (isspace c); repeat constructor; assumption.
  - constructor; assumption.
Qed.

Lemma Forall_strip (P : ascii -> Prop) s : Forall P s -> Forall P (strip s).
Proof. intros H. apply Forall_rstrip, Forall_lstrip, H. Qed.

End StripFacts.

(** ** Validation, once more *)

Lemma count_text_zero s ds : Ndb.count_text s ds = 0%nat <-> ~ stored_text ds s.
Proof.
  split.
  - intros H (k & m & Hk & Ht).
    pose proof (NdbFacts.count_text_pos _ _ _ _ Hk Ht). lia.
  - intros H. unfold Ndb.count_text.
    destruct (filter _ _) as [|[k m] l] eqn:E; [reflexivity|]. exfalso.
    assert (Hin : (k, m) ∈ filter (fun e : Z * Memory => text e.2 = s)
                           (map_to_list (Ndb.rows ds))).
    { rewrite E. left. }
    apply list_elem_of_filter in Hin as [Ht Hin].
    apply elem_of_map_to_list in Hin. apply H. exists k, m. auto.
Qed.

Lemma validate_none_inv cfg t ds :
  validate cfg t ds = None ->
  t <> [] /\ Z.of_nat (length t) <= MAX_CHARACTERS cfg
  /\ Ndb.count_text t ds = 0%nat.
Proof.
  unfold validate.
  destruct (Nat.eqb_spec (length t) 0); [discriminate|].
  destruct (Z.gtb_spec (Z.of_nat (length t)) (MAX_CHARACTERS cfg));
    [discriminate|].
  destruct (Nat.ltb_spec 0 (Ndb.count_text t ds)); [discriminate|].
  intros _. split; [|split; lia]. intros ->. simpl in *. lia.
Qed.

Lemma validate_none_intro cfg t ds :
  t <> [] -> Z.of_nat (length t) <= MAX_CHARACTERS cfg ->
  Ndb.count_text t ds = 0%nat -> validate cfg t ds = None.
Proof.
  intros Hne Hl Hc. unfold validate.
  destruct (Nat.eqb_spec (length t) 0) as [E|_].
  { destruct t; [contradiction | discriminate]. }
  destruct (Z.gtb_spec (Z.of_nat (length t)) (MAX_CHARACTERS cfg)); [lia|].
  rewrite Hc. reflexivity.
Qed.

(** X1. [validate] lets a text pass exactly when it is not empty, at
    most MAX_CHARACTERS long and the text of no stored memory. *)
Theorem validate_accepts_iff cfg t ds :
  validate cfg t ds = None
  <-> t <> [] /\ Z.of_nat (length t) <= MAX_CHARACTERS cfg
      /\ ~ stored_text ds t.
Proof.
  split.
  - intros H. apply validate_none_inv in H as (Hne & Hl & Hc).
    rewrite count_text_zero in Hc. auto.
  - intros (Hne & Hl & Hc). apply validate_none_intro; auto.
    apply count_text_zero, Hc.
Qed.

(** ** What a submission changes *)

Lemma first_command_plain cmds c rest :
  Py.isspace c = false -> c <> slash -> first_command cmds (c :: rest) = None.
Proof.
  intros Hsp Hc. induction cmds as [|cls cmds IH]; [reflexivity|].
  unfold first_command in *. cbn [List.find].
  assert (Hs : starts_with_command cls (c :: rest) = false).
  { unfold starts_with_command.
    change (Py.lower (c :: rest)) with (Py.lower_char c :: Py.lower rest).
    destruct (StripFacts.strip_cons_nonspace (Py.lower_char c) (Py.lower rest))
      as [r ->].
    { rewrite lower_char_space. exact Hsp. }
    unfold pattern_of. cbn [Py.startswith].
    rewrite bool_decide_eq_false_2; [reflexivity|].
    intros E. apply Hc, lower_char_slash. symmetry. exact E. }
  rewrite Hs. exact IH.
Qed.

Lemma checked_text_plain cfg req w c rest :
  Py.strip (form_text req) = c :: rest -> c <> slash ->
  validate cfg (c :: rest) (db w) = None ->
  checked_text cfg req w = (Val (inr (c :: rest)), w).
Proof.
  intros Ht Hc Hv. rewrite checked_text_run. cbv zeta. rewrite Ht, Hv.
  rewrite for_slash_commands_first.
  rewrite first_command_plain by (eauto using StripFacts.strip_head).
  cbn [lookup list_lookup].
  rewrite bool_decide_eq_false_2 by exact Hc. reflexivity.
Qed.

Lemma evicted_frame w :
  deity (evicted w) = deity w /\ flashes (evicted w) = flashes w
  /\ Ndb.next_id (db (evicted w)) = Ndb.next_id (db w).
Proof.
  unfold evicted. destruct (_ =? _)%nat; [|auto].
  destruct (Ndb.first_key (db w)); auto.
Qed.



(** X3. Once a plain text has been stored, the same text (whatever the
    whitespace around it) is refused with the 400 for a repeated text,
    and the refusal changes nothing. *)
Theorem resubmission_is_refused cfg req req' w c rest :
  Py.strip (form_text req) = c :: rest -> c <> slash ->
  validate cfg (c :: rest) (db w) = None ->
  Py.strip (form_text req') = c :: rest ->
  new_memory cfg req' (new_memory cfg req w).2
  = (Val (Status (ERROR_UNORIGINAL cfg) 400), (new_memory cfg req w).2).
Proof.
  intros Ht Hc Hv Ht'.
  pose proof (checked_text_plain cfg req w c rest Ht Hc Hv) as Hch.
  rewrite (new_memory_accepted _ _ _ _ _ Hch). cbn [snd].
  apply new_memory_rejected. rewrite Ht'. cbn [db set_db].
  apply validate_none_inv in Hv as (Hne & Hlen & _).
  assert (Hpos : (0 < Ndb.count_text (c :: rest)
                        (Ndb.put (now req) (Memory_create req (c :: rest))
                           (db (evicted w))))%nat).
  { eapply NdbFacts.count_text_pos; [apply lookup_insert_eq | reflexivity]. }
  unfold validate.
  destruct (Nat.eqb_spec (length (c :: rest)) 0); [discriminate|].
  destruct (Z.gtb_spec (Z.of_nat (length (c :: rest))) (MAX_CHARACTERS cfg));
    [lia|].
  rewrite (proj2 (Nat.ltb_lt _ _) Hpos). reflexivity.
Qed.

Lemma resubmission_is_refused_witness :
  new_memory sample_config (sample_request (lit "hello  "))
    (new_memory sample_config (sample_request (lit " hello "))
       (sample_world 10)).2
  = (Val (Status (ERROR_UNORIGINAL sample_config) 400),
     (new_memory sample_config (sample_request (lit " hello "))
        (sample_world 10)).2).
Proof.
  apply (resubmission_is_refused sample_config
           (sample_request (lit " hello ")) (sample_request (lit "hello  "))
           (sample_world 10) "h"%char (lit "ello"));
    [reflexivity | discriminate | reflexivity | reflexivity].
Defined.



(** ** The text that is stored *)

Lemma danbooru_callback_world cfg args req w :
  (SlashDanbooru_callback cfg args req w).2 = w.
Proof.
  rewrite danbooru_callback_run.
  destruct (danbooru_posts req _) as [results|e]; [|reflexivity].
  destruct (random_choice _ results) as [chosen|e].
  - destruct (file_url chosen); reflexivity.
  - destruct (decide (e = IndexError)); reflexivity.
Qed.

(** The loop hands on the text it was given, or an address at the
    danbooru host; either way the world is as it was. *)
Lemma fallthrough_inv cfg t req w t' w' :
  for_slash_commands (slash_commands cfg) t req w = (Val (Fallthrough t'), w') ->
  w' = w /\ (t' = t \/ exists url, t' = danbooru_host ++ url).
Proof.
  rewrite for_slash_commands_first.
  destruct (first_command _ _) as [cls|] eqn:Hf.
  - apply first_command_in in Hf. simpl in Hf.
    destruct Hf as [<-|[<-|[<-|[]]]];
      cbn [callback SlashLogin SlashLogout SlashDanbooru].
    + pose proof (login_callback_no_memory cfg
        (args_of (pattern_of (SlashLogin cfg)) (Py.strip (Py.lower t))) req w)
        as Hn.
      destruct (SlashLogin_callback cfg _ req w) as [[[v|r]|e|] w1];
        simpl; try discriminate.
      exfalso. exact (Hn v eq_refl).
    + pose proof (logout_callback_no_memory cfg
        (args_of (pattern_of (SlashLogout cfg)) (Py.strip (Py.lower t))) req w)
        as Hn.
      destruct (SlashLogout_callback cfg _ req w) as [[[v|r]|e|] w1];
        simpl; try discriminate.
      exfalso. exact (Hn v eq_refl).
    + pose proof (danbooru_callback_world cfg
        (args_of (pattern_of (SlashDanbooru cfg)) (Py.strip (Py.lower t)))
        req w) as Hw.
      destruct (SlashDanbooru_callback cfg _ req w) as [[[v|r]|e|] w1] eqn:Hd;
        simpl; try discriminate.
      intros [= <- <-]. simpl in Hw. split; [exact Hw|]. right.
      exact (danbooru_callback_memory _ _ _ _ _ _ Hd).
  - intros [= <- <-]. auto.
Qed.

(** The text that goes on to be stored has a first character, which is
    no slash, and nothing but the datastore is touched on its way. *)
Lemma checked_text_inr_inv cfg req w t' w1 :
  checked_text cfg req w = (Val (inr t'), w1) ->
  w1 = w /\ exists c rest, t' = c :: rest /\ c <> slash.
Proof.
  rewrite checked_text_run. cbv zeta.
  destruct (validate cfg _ (db w)); [discriminate|].
  destruct (for_slash_commands _ _ req w) as [[[t2|v]|e|] w2] eqn:Hloop;
    try discriminate.
  destruct (fallthrough_inv _ _ _ _ _ _ Hloop) as [-> Ht2].
  destruct t2 as [|c rest]; [discriminate|]. cbn [lookup list_lookup].
  destruct (bool_decide_reflect (c = slash)) as [->|Hc]; cbn [andb].
  - destruct (Py.eqb _ _) eqn:E; [discriminate|].
    unfold Py.eqb in E. apply bool_decide_eq_false_1 in E.
    destruct Ht2 as [Ht2|[url Ht2]]; [contradiction|].
    unfold danbooru_host in Ht2. discriminate Ht2.
  - intros [= <- <-]. split; [reflexivity|]. eauto.
Qed.

Lemma evicted_rows w k m :
  Ndb.rows (db (evicted w)) !! k = Some m -> Ndb.rows (db w) !! k = Some m.
Proof.
  unfold evicted. destruct (_ =? _)%nat; [|auto].
  destruct (Ndb.first_key (db w)) as [k0|]; [|auto].
  cbn [db set_db Ndb.delete_key Ndb.rows]. intros H.
  apply lookup_delete_Some in H. tauto.
Qed.

(** The rows after a submission: the rows before, or a row under the id
    that was next, with its timestamp and a text that starts with no
    slash. *)
Lemma new_memory_rows cfg req w k m :
  Ndb.rows (db (new_memory cfg req w).2) !! k = Some m ->
  Ndb.rows (db w) !! k = Some m
  \/ (k = Ndb.next_id (db w)
      /\ Ndb.next_id (db (new_memory cfg req w).2) = Ndb.next_id (db w) + 1
      /\ is_Some (timestamp m)
      /\ exists c rest, text m = c :: rest /\ c <> slash).
Proof.
  rewrite new_memory_run.
  pose proof (keeps_db_checked_text cfg req w) as Hdb.
  destruct (checked_text cfg req w) as [[[r|t]|e|] w1] eqn:Hch;
    cbn [snd] in Hdb |- *; try (rewrite Hdb; tauto).
  destruct (checked_text_inr_inv _ _ _ _ _ Hch) as (-> & c & rest & -> & Hc).
  rewrite store_memory_run. cbn [snd db set_db].
  destruct (evicted_frame w) as (_ & _ & Hn).
  unfold Ndb.put. cbn [Ndb.rows Ndb.next_id]. rewrite Hn.
  intros H. apply lookup_insert_Some in H as [[<- <-]|[Hne H]].
  - right. split; [reflexivity|]. split; [reflexivity|].
    split; [simpl; eauto|]. simpl. eauto.
  - left. apply evicted_rows, H.
Qed.

Lemma new_memory_next_id cfg req w :
  Ndb.next_id (db w) <= Ndb.next_id (db (new_memory cfg req w).2).
Proof.
  rewrite new_memory_run.
  pose proof (keeps_db_checked_text cfg req w) as Hdb.
  destruct (checked_text cfg req w) as [[[r|t]|e|] w1] eqn:Hch;
    cbn [snd] in Hdb |- *; try (rewrite Hdb; lia).
  rewrite store_memory_run. cbn [snd db set_db Ndb.put Ndb.next_id].
  destruct (evicted_frame w1) as (_ & _ & Hn). rewrite Hn, Hdb. lia.
Qed.

(** X5. The slash check keeps what it is there for: when no stored text
    is empty or starts with a slash, none does after any run of
    submissions, whatever they are. *)
Theorem stored_texts_stay_presentable cfg reqs w :
  presentable (db w) -> presentable (db (serve cfg reqs w)).
Proof.
  revert w. induction reqs as [|req reqs IH]; intros w H; [exact H|].
  simpl. apply IH. intros k m Hk.
  apply new_memory_rows in Hk as [Hk|(_ & _ & _ & Ht)]; [exact (H k m Hk)|].
  exact Ht.
Qed.

Lemma stored_texts_stay_presentable_witness :
  presentable
    (db (serve sample_config
           [sample_request (lit "/bogus"); sample_request (lit "/danbooru cat");
            sample_request (lit "hello")]
           (sample_world 0))).
Proof.
  apply (stored_texts_stay_presentable sample_config).
  intros k m H. vm_compute in H. discriminate H.
Defined.

(** X6. Ids are not used twice: when every key in use lies below the
    next id, it does so after any run of submissions, and the next id
    never goes down. *)
Theorem ids_stay_fresh cfg reqs w :
  fresh_ids (db w) ->
  fresh_ids (db (serve cfg reqs w))
  /\ Ndb.next_id (db w) <= Ndb.next_id (db (serve cfg reqs w)).
Proof.
  revert w. induction reqs as [|req reqs IH]; intros w H; simpl.
  - split; [exact H | lia].
  - pose proof (new_memory_next_id cfg req w) as Hn.
    destruct (IH (new_memory cfg req w).2) as [IH1 IH2]; [|split; [exact IH1 | lia]].
    intros k [m Hk].
    apply new_memory_rows in Hk as [Hk|(-> & Hn' & _)].
    + specialize (H k (ex_intro _ m Hk)). lia.
    + lia.
Qed.

Lemma ids_stay_fresh_witness :
  fresh_ids
    (db (serve sample_config
           [sample_request (lit "hello"); sample_request (lit "again")]
           (sample_world 10)))
  /\ Ndb.next_id (db (sample_world 10))
     <= Ndb.next_id
          (db (serve sample_config
                 [sample_request (lit "hello"); sample_request (lit "again")]
                 (sample_world 10))).
Proof.
  apply (ids_stay_fresh sample_config).
  intros k [m H]. simpl. unfold sample_world in H. cbn [db Ndb.rows] in H.
  apply elem_of_list_to_map_2 in H. simpl in H.
  repeat (apply elem_of_cons in H as [H|H]; [injection H as -> _; lia|]).
  inversion H.
Defined.

(** X7. Below capacity nothing is forgotten: with fresh ids and fewer
    than ten memories, a submission that gets as far as being stored
    adds one memory and keeps every memory there was. *)
Theorem below_capacity_nothing_is_lost cfg req w t w1 :
  fresh_ids (db w) -> (Ndb.count (db w) < 10)%nat ->
  checked_text cfg req w = (Val (inr t), w1) ->
  Ndb.count (db (new_memory cfg req w).2) = S (Ndb.count (db w))
  /\ forall k m, Ndb.rows (db w) !! k = Some m ->
       Ndb.rows (db (new_memory cfg req w).2) !! k = Some m.
Proof.
  intros Hfresh Hlt Hch.
  destruct (checked_text_inr_inv _ _ _ _ _ Hch) as (-> & _).
  rewrite (new_memory_accepted _ _ _ _ _ Hch).
  rewrite evicted_other by lia. cbn [snd db set_db].
  assert (Hnone : Ndb.rows (db w) !! Ndb.next_id (db w) = None).
  { destruct (Ndb.rows (db w) !! Ndb.next_id (db w)) eqn:E; [|reflexivity].
    specialize (Hfresh _ (ex_intro _ _ E)). lia. }
  split.
  - unfold Ndb.count, Ndb.put. cbn [Ndb.rows].
    apply map_size_insert_None, Hnone.
  - intros k m Hk. unfold Ndb.put. cbn [Ndb.rows].
    rewrite lookup_insert_ne; [exact Hk|]. intros <-. congruence.
Qed.

Lemma below_capacity_nothing_is_lost_witness :
  Ndb.count
    (db (new_memory sample_config (sample_request (lit "hello"))
           (sample_world 3)).2)
  = S (Ndb.count (db (sample_world 3)))
  /\ forall k m, Ndb.rows (db (sample_world 3)) !! k = Some m ->
       Ndb.rows
         (db (new_memory sample_config (sample_request (lit "hello"))
                (sample_world 3)).2) !! k = Some m.
Proof.
  apply (below_capacity_nothing_is_lost sample_config
           (sample_request (lit "hello")) (sample_world 3)
           (lit "hello") (sample_world 3)).
  - intros k [m H]. unfold sample_world in H. cbn [db Ndb.rows] in H.
    apply elem_of_list_to_map_2 in H. simpl in H. simpl.
    repeat (apply elem_of_cons in H as [H|H]; [injection H as -> _; lia|]).
    inversion H.
  - vm_compute. lia.
  - vm_compute. reflexivity.
Defined.

(** ** The arguments of a command *)

Module ArgFacts.
Import Py.

Lemma Forall_replace_from (P : ascii -> Prop) k old s :
  Forall P s -> Forall P (replace_from k old [] s).
Proof.
  intros H. revert k. induction H as [|c s Hc Hs IH]; intros k; [constructor|].
  cbn [replace_from]. destruct k as [|k]; [|apply IH].
  destruct (startswith old (c :: s)).
  - apply IH.
  - constructor; [exact Hc | apply IH].
Qed.

Lemma Forall_replace (P : ascii -> Prop) c old s :
  Forall P s -> Forall P (replace (c :: old) [] s).
Proof. apply Forall_replace_from. Qed.

Lemma Forall_split (P : ascii -> Prop) sep s :
  Forall P s -> Forall (Forall P) (split sep s).
Proof.
  induction 1 as [|c s Hc Hs IH]; [repeat constructor|].
  cbn [split]. destruct (bool_decide (c = sep)).
  - constructor; [constructor | exact IH].
  - destruct (split sep s) as [|w ws]; [repeat constructor; exact Hc|].
    inversion IH; subst. constructor; [constructor|]; assumption.
Qed.

Lemma split_no_sep_inside sep s :
  Forall (Forall (fun c => c <> sep)) (split sep s).
Proof.
  induction s as [|c s IH]; [repeat constructor|].
  cbn [split]. destruct (bool_decide_reflect (c = sep)) as [E|E].
  - constructor; [constructor | exact IH].
  - destruct (split sep s) as [|w ws]; [repeat constructor; exact E|].
    inversion IH; subst. constructor; [constructor|]; assumption.
Qed.

End ArgFacts.

Lemma args_of_elem (pattern text arg : str) :
  In arg (args_of pattern text) ->
  arg <> []
  /\ exists piece,
       In piece (Py.split space (Py.replace pattern [] text))
       /\ arg = Py.strip piece.
Proof.
  unfold args_of. intros Hin.
  apply in_map_iff in Hin as (piece & <- & Hp).
  apply filter_In in Hp as [Hp Ht]. split; [|eauto].
  destruct (Py.strip piece); [discriminate Ht | discriminate].
Qed.

(** X8. The arguments that a callback gets are never empty, carry no
    whitespace at their ends and no space inside. *)
Theorem args_are_clean (pattern text : str) :
  Forall (fun arg => arg <> [] /\ Py.strip arg = arg
                     /\ Forall (fun c => c <> space) arg)
    (args_of pattern text).
Proof.
  apply Forall_forall. intros arg Hin.
  apply list_elem_of_In, args_of_elem in Hin as (Hne & piece & Hp & ->).
  split; [exact Hne|]. split; [apply StripFacts.strip_strip|].
  apply StripFacts.Forall_strip.
  pose proof (ArgFacts.split_no_sep_inside space (Py.replace pattern [] text))
    as Hall.
  rewrite Forall_forall in Hall. apply Hall, list_elem_of_In, Hp.
Qed.

Lemma args_are_lower (c : ascii) (name text : str) :
  Forall (fun arg => Py.lower arg = arg)
    (args_of (c :: name) (Py.strip (Py.lower text))).
Proof.
  assert (Hl : Forall (fun c => Py.lower_char c = c)
                 (Py.strip (Py.lower text))).
  { apply StripFacts.Forall_strip. unfold Py.lower.
    apply Forall_forall. intros d Hd.
    apply list_elem_of_In, in_map_iff in Hd as (d0 & <- & _).
    apply lower_char_lower_char. }
  unfold args_of. apply Forall_forall. intros arg Hin.
  apply list_elem_of_In, in_map_iff in Hin as (piece & <- & Hp).
  apply filter_In in Hp as [Hp _].
  pose proof (ArgFacts.Forall_split _ space _
                (ArgFacts.Forall_replace _ c name _ Hl)) as Hall.
  rewrite Forall_forall in Hall.
  specialize (Hall piece (proj2 (list_elem_of_In _ _) Hp)).
  apply (StripFacts.Forall_strip _ _) in Hall.
  unfold Py.lower. induction Hall as [|d s Hd _ IH]; [reflexivity|].
  simpl. rewrite Hd, IH. reflexivity.
Qed.

(** X9. A command is recognised whatever the case of the letters and
    whatever the whitespace around the text: [attempt] gives on the
    lower-cased text, and on the trimmed text, what it gives on the
    text. *)
Theorem attempt_ignores_case_and_margin cls text req :
  attempt cls (Py.lower text) req = attempt cls text req
  /\ attempt cls (Py.strip text) req = attempt cls text req.
Proof.
  unfold attempt. split.
  - rewrite StripFacts.lower_lower. reflexivity.
  - rewrite <- (StripFacts.strip_lower text), StripFacts.strip_strip.
    reflexivity.
Qed.

(** ** The session *)

Lemma store_memory_deity req t w : deity (store_memory req t w).2 = deity w.
Proof.
  rewrite store_memory_run. cbn [snd deity set_db].
  apply (evicted_frame w).
Qed.

Lemma new_memory_world_deity cfg req w :
  deity (new_memory cfg req w).2 = deity (checked_text cfg req w).2.
Proof.
  rewrite new_memory_run.
  destruct (checked_text cfg req w) as [[[r|t]|e|] w1]; try reflexivity.
  apply store_memory_deity.
Qed.

Lemma checked_text_world cfg req w :
  (checked_text cfg req w).2 =
    match validate cfg (Py.strip (form_text req)) (db w) with
    | Some _ => w
    | None =>
        (for_slash_commands (slash_commands cfg) (Py.strip (form_text req))
           req w).2
    end.
Proof.
  rewrite checked_text_run. cbv zeta.
  destruct (validate cfg _ (db w)); [reflexivity|].
  destruct (for_slash_commands _ _ req w) as [[[t'|v]|e|] w'];
    try reflexivity.
  cbn [snd]. destruct (t' !! 0%nat); [|reflexivity].
  destruct (_ && _); reflexivity.
Qed.

Lemma for_slash_commands_world cmds t req w :
  (for_slash_commands cmds t req w).2 =
    match first_command cmds t with
    | None => w
    | Some cls =>
        (callback cls (args_of (pattern_of cls) (Py.strip (Py.lower t)))
           req w).2
    end.
Proof.
  rewrite for_slash_commands_first.
  destruct (first_command cmds t) as [cls|]; [|reflexivity].
  destruct (callback cls _ req w) as [[[v|r]|e|] w']; reflexivity.
Qed.

(** The [deity] after a submission is the one that the callback of the
    command that ran has left, or the one before. *)
Lemma new_memory_deity cfg req w :
  deity (new_memory cfg req w).2 =
    match validate cfg (Py.strip (form_text req)) (db w) with
    | Some _ => deity w
    | None =>
        match first_command (slash_commands cfg) (Py.strip (form_text req)) with
        | None => deity w
        | Some cls =>
            deity (callback cls
                     (args_of (pattern_of cls)
                        (Py.strip (Py.lower (Py.strip (form_text req)))))
                     req w).2
        end
    end.
Proof.
  rewrite new_memory_world_deity, checked_text_world.
  destruct (validate cfg _ (db w)); [reflexivity|].
  rewrite for_slash_commands_world.
  destruct (first_command _ _); reflexivity.
Qed.

(** Of the three callbacks only login's can make a deity, and only when
    its arguments are the secret alone. *)
Lemma callback_deity_gain cfg cls args req w :
  In cls (slash_commands cfg) ->
  deity (callback cls args req w).2 = Some true ->
  deity w <> Some true ->
  pattern_of cls = login_pattern /\ args = [WHISPER_SECRET cfg].
Proof.
  intros Hin H Hw. simpl in Hin.
  destruct Hin as [<-|[<-|[<-|[]]]];
    cbn [callback SlashLogin SlashLogout SlashDanbooru] in H.
  - split; [reflexivity|]. unfold SlashLogin_callback in H.
    destruct args as [|a [|b args]]; try (simpl in H; contradiction).
    unfold Py.eqb in H.
    destruct (bool_decide_reflect (a = WHISPER_SECRET cfg)) as [E|E];
      [rewrite E; reflexivity | simpl in H; contradiction].
  - unfold SlashLogout_callback in H.
    destruct args; simpl in H; [discriminate | contradiction].
  - rewrite danbooru_callback_world in H. contradiction.
Qed.

(** X10. Only the secret makes a deity: when a submission turns the
    session's [deity] to [True], the text passed validation, started
    with [/login], and its one argument was the configured secret. *)
Theorem deity_only_by_secret cfg req w :
  deity (new_memory cfg req w).2 = Some true ->
  deity w <> Some true ->
  validate cfg (Py.strip (form_text req)) (db w) = None
  /\ starts_with_command (SlashLogin cfg) (Py.strip (form_text req)) = true
  /\ args_of login_pattern (Py.strip (Py.lower (Py.strip (form_text req))))
     = [WHISPER_SECRET cfg].
Proof.
  rewrite new_memory_deity. intros H Hw.
  destruct (validate cfg _ (db w)); [contradiction|].
  destruct (first_command _ _) as [cls|] eqn:Hf; [|contradiction].
  pose proof Hf as Hm. apply find_some in Hm as [_ Hm].
  apply first_command_in in Hf.
  destruct (callback_deity_gain cfg cls _ req w Hf H Hw) as [Hp Hargs].
  split; [reflexivity|]. split.
  - unfold starts_with_command in *. rewrite Hp in Hm. exact Hm.
  - rewrite <- Hp. exact Hargs.
Qed.

Lemma deity_only_by_secret_witness :
  validate sample_config (Py.strip (lit " /Login sesame ")) (db (sample_world 3))
  = None
  /\ starts_with_command (SlashLogin sample_config)
       (Py.strip (lit " /Login sesame ")) = true
  /\ args_of login_pattern
       (Py.strip (Py.lower (Py.strip (lit " /Login sesame "))))
     = [WHISPER_SECRET sample_config].
Proof.
  apply (deity_only_by_secret sample_config
           (sample_request (lit " /Login sesame ")) (sample_world 3)).
  - vm_compute. reflexivity.
  - discriminate.
Defined.

(** X11. A secret that is empty, has a space or whitespace at an end, or
    has a letter that [lower()] changes cannot be used: with such a
    secret no submission turns [deity] to [True]. *)
Theorem unusable_secret cfg req w :
  (WHISPER_SECRET cfg = []
   \/ In space (WHISPER_SECRET cfg)
   \/ Py.strip (WHISPER_SECRET cfg) <> WHISPER_SECRET cfg
   \/ Py.lower (WHISPER_SECRET cfg) <> WHISPER_SECRET cfg) ->
  deity w <> Some true ->
  deity (new_memory cfg req w).2 <> Some true.
Proof.
  intros Hbad Hw H. rewrite new_memory_deity in H.
  destruct (validate cfg _ (db w)); [contradiction|].
  destruct (first_command _ _) as [cls|] eqn:Hf; [|contradiction].
  apply first_command_in in Hf.
  destruct (callback_deity_gain cfg cls _ req w Hf H Hw) as [Hp Hargs].
  rewrite Hp in Hargs.
  assert (Hin : In (WHISPER_SECRET cfg)
                  (args_of login_pattern
                     (Py.strip (Py.lower (Py.strip (form_text req)))))).
  { rewrite Hargs. left. reflexivity. }
  destruct (args_of_elem _ _ _ Hin) as (Hne & piece & Hpiece & Hs).
  pose proof (args_are_lower slash (lit "login") (Py.strip (form_text req)))
    as Hlow.
  change (slash :: lit "login") with login_pattern in Hlow.
  rewrite Hargs in Hlow. apply Forall_inv in Hlow.
  destruct Hbad as [E|[E|[E|E]]]; try contradiction.
  - pose proof (ArgFacts.split_no_sep_inside space
                  (Py.replace login_pattern []
                     (Py.strip (Py.lower (Py.strip (form_text req))))))
      as Hall.
    rewrite Forall_forall in Hall.
    specialize (Hall piece (proj2 (list_elem_of_In _ _) Hpiece)).
    apply (StripFacts.Forall_strip _ _) in Hall. rewrite <- Hs in Hall.
    rewrite Forall_forall in Hall.
    apply (Hall space); [apply list_elem_of_In, E | reflexivity].
  - apply E. rewrite Hs. apply StripFacts.strip_strip.
Qed.

Lemma unusable_secret_witness :
  deity
    (new_memory
       {| WHISPER_SECRET := lit "Sesame";
          DEITY_GREET := DEITY_GREET sample_config;
          DEITY_GOODBYE := DEITY_GOODBYE sample_config;
          LOGIN_FAIL := LOGIN_FAIL sample_config;
          ERROR_DANBOORU := ERROR_DANBOORU sample_config;
          ERROR_TOO_LONG := ERROR_TOO_LONG sample_config;
          ERROR_UNORIGINAL := ERROR_UNORIGINAL sample_config;
          MAX_CHARACTERS := 140 |}
       (sample_request (lit "/login Sesame")) (sample_world 3)).2
  <> Some true.
Proof.
  apply unusable_secret.
  - right. right. right. discriminate.
  - discriminate.
Defined.

(** ** Logout and the danbooru memory *)

Lemma first_command_logout cfg t :
  Py.strip (Py.lower t) = lit "/logout" ->
  first_command (slash_commands cfg) t = Some (SlashLogout cfg).
Proof.
  intros Ht. unfold first_command, slash_commands, starts_with_command.
  cbn [List.find]. rewrite Ht. reflexivity.
Qed.

(** X12. A valid text that, lower-cased and trimmed, is [/logout] ends
    the deity: the [deity] key is removed from the session, the farewell
    is flashed, the redirect is returned and the datastore is as it
    was. *)
Theorem logout_command cfg req w :
  validate cfg (Py.strip (form_text req)) (db w) = None ->
  Py.strip (Py.lower (Py.strip (form_text req))) = lit "/logout" ->
  new_memory cfg req w =
    (Val (Redirect show_memories_endpoint),
     {| db := db w; deity := None;
        flashes := flashes w ++ [DEITY_GOODBYE cfg] |}).
Proof.
  intros Hv Ht.
  apply (new_memory_first_command cfg req w (SlashLogout cfg) Hv
           (first_command_logout cfg _ Ht)).
  rewrite Ht. reflexivity.
Qed.

Lemma logout_command_witness :
  new_memory sample_config (sample_request (lit "  /LogOut "))
    {| db := db (sample_world 3); deity := Some true; flashes := [] |}
  = (Val (Redirect show_memories_endpoint),
     {| db := db (sample_world 3); deity := None;
        flashes := [] ++ [DEITY_GOODBYE sample_config] |}).
Proof.
  apply (logout_command sample_config (sample_request (lit "  /LogOut "))
           {| db := db (sample_world 3); deity := Some true; flashes := [] |});
    reflexivity.
Defined.




(** ** The listing *)

Lemma sample_world_Forall (P : Z * Memory -> Prop) n :
  Forall P sample_entities ->
  forall k m, Ndb.rows (db (sample_world n)) !! k = Some m -> P (k, m).
Proof.
  intros HP k m H. unfold sample_world in H. cbn [db Ndb.rows] in H.
  apply elem_of_list_to_map_2 in H.
  rewrite Forall_forall in HP. apply HP.
  rewrite <- (take_drop n sample_entities). apply elem_of_app. left. exact H.
Qed.

Lemma order_by_timestamp_NoDup ds : NoDup (Ndb.order_by_timestamp ds).
Proof.
  unfold Ndb.order_by_timestamp.
  rewrite (merge_sort_Permutation Ndb.entry_le (map_to_list (Ndb.rows ds))).
  apply NoDup_map_to_list.
Qed.

Lemma order_by_timestamp_keys_NoDup ds :
  NoDup (Ndb.order_by_timestamp ds).*1.
Proof.
  unfold Ndb.order_by_timestamp.
  rewrite (merge_sort_Permutation Ndb.entry_le (map_to_list (Ndb.rows ds))).
  apply NoDup_fst_map_to_list.
Qed.

Lemma to_dict_shows iso e d : to_dict iso e = Ok d -> shows iso e d.
Proof.
  unfold to_dict, shows. destruct (timestamp e.2) as [ts|]; [|discriminate].
  intros [= <-]. simpl. eauto 6.
Qed.

Lemma to_dicts_shows iso l ds :
  to_dicts iso l = Ok ds -> Forall2 (shows iso) l ds.
Proof.
  revert ds. induction l as [|e l IH]; intros ds; simpl.
  - intros [= <-]. constructor.
  - destruct (to_dict iso e) as [d|] eqn:E; [|discriminate].
    destruct (to_dicts iso l) as [ds'|]; [|discriminate].
    intros [= <-]. constructor; [apply to_dict_shows, E | apply IH; reflexivity].
Qed.

Lemma to_dicts_ok iso l :
  Forall (fun e : Z * Memory => is_Some (timestamp e.2)) l ->
  exists ds, to_dicts iso l = Ok ds.
Proof.
  induction 1 as [|e l [ts He] _ [ds IH]]; simpl; [eauto|].
  unfold to_dict. rewrite He, IH. eauto.
Qed.

Lemma to_dicts_err iso l e :
  e ∈ l -> timestamp e.2 = None -> to_dicts iso l = Err AttributeError.
Proof.
  intros Hin He. induction l as [|a l IH]; [inversion Hin|].
  simpl. apply elem_of_cons in Hin as [<-|Hin].
  - unfold to_dict. rewrite He. reflexivity.
  - unfold to_dict at 1. destruct (timestamp a.2); [|reflexivity].
    rewrite (IH Hin). reflexivity.
Qed.

(** X14. The listing shows every stored memory once, the oldest first:
    the dictionaries show, one for one, the stored entities in the order
    of the index on the timestamp (by timestamp, then by key), with
    their ids, texts and thumbnails; no id comes twice and none is
    missing. *)
Theorem listing_is_complete_and_sorted iso w ds :
  show_memories iso w = Ok ds ->
  Forall2 (shows iso) (Ndb.order_by_timestamp (db w)) ds
  /\ StronglySorted Ndb.entry_le (Ndb.order_by_timestamp (db w))
  /\ NoDup (map dict_id ds)
  /\ length ds = Ndb.count (db w)
  /\ forall k, In k (map dict_id ds) <-> is_Some (Ndb.rows (db w) !! k).
Proof.
  unfold show_memories. cbv zeta. intros H.
  pose proof (to_dicts_shows _ _ _ H) as Hs.
  assert (Hids : map dict_id ds = (Ndb.order_by_timestamp (db w)).*1).
  { clear H. induction Hs as [|e d l ds' (Hid & _) _ IH]; [reflexivity|].
    simpl. rewrite Hid, IH. reflexivity. }
  split; [exact Hs|]. split; [apply NdbFacts.order_by_timestamp_sorted|].
  split; [rewrite Hids; apply order_by_timestamp_keys_NoDup|].
  split.
  - rewrite <- (Forall2_length _ _ _ Hs).
    apply NdbFacts.order_by_timestamp_length.
  - intros k. rewrite Hids, <- list_elem_of_In, list_elem_of_fmap. split.
    + intros ([k' m] & -> & Hin).
      apply NdbFacts.order_by_timestamp_elem in Hin. eauto.
    + intros [m Hm]. exists (k, m). split; [reflexivity|].
      apply NdbFacts.order_by_timestamp_elem, Hm.
Qed.

Lemma listing_is_complete_and_sorted_witness :
  exists ds,
    show_memories (fun _ => lit "t") (sample_world 3) = Ok ds
    /\ map dict_id ds = [2; 3; 1]
    /\ NoDup (map dict_id ds).
Proof.
  eexists. split; [vm_compute; reflexivity|]. split; [reflexivity|].
  apply (listing_is_complete_and_sorted (fun _ => lit "t") (sample_world 3)).
  vm_compute. reflexivity.
Defined.

Lemma new_memory_timestamps cfg req w :
  timestamps_set (db w) -> timestamps_set (db (new_memory cfg req w).2).
Proof.
  intros H k m Hk.
  apply new_memory_rows in Hk as [Hk|(_ & _ & Ht & _)]; [exact (H k m Hk)|].
  exact Ht.
Qed.

Lemma show_memories_ok iso w :
  timestamps_set (db w) -> exists ds, show_memories iso w = Ok ds.
Proof.
  intros H. unfold show_memories. cbv zeta. apply to_dicts_ok.
  apply Forall_forall. intros [k m] Hin.
  apply NdbFacts.order_by_timestamp_elem in Hin. exact (H k m Hin).
Qed.

(** X15. The listing fails exactly on a memory without timestamp, and
    submissions make none: when every stored memory has its timestamp,
    then after any run of submissions the listing is there, one
    dictionary for each memory; and a stored memory without timestamp
    makes the listing raise the AttributeError. *)
Theorem listing_never_fails_after_submissions cfg iso reqs w :
  timestamps_set (db w) ->
  (exists ds,
     show_memories iso (serve cfg reqs w) = Ok ds
     /\ length ds = Ndb.count (db (serve cfg reqs w)))
  /\ forall w0 k m,
       Ndb.rows (db w0) !! k = Some m -> timestamp m = None ->
       show_memories iso w0 = Err AttributeError.
Proof.
  intros H. split.
  - assert (Hs : timestamps_set (db (serve cfg reqs w))).
    { revert w H. induction reqs as [|req reqs IH]; intros w H; [exact H|].
      simpl. apply IH, new_memory_timestamps, H. }
    destruct (show_memories_ok iso _ Hs) as [ds Hd]. exists ds.
    split; [exact Hd|].
    unfold show_memories in Hd. cbv zeta in Hd.
    rewrite <- (Forall2_length _ _ _ (to_dicts_shows _ _ _ Hd)).
    apply NdbFacts.order_by_timestamp_length.
  - intros w0 k m Hk Ht. unfold show_memories. cbv zeta.
    apply (to_dicts_err iso _ (k, m)); [|exact Ht].
    apply NdbFacts.order_by_timestamp_elem, Hk.
Qed.

Lemma listing_never_fails_after_submissions_witness :
  exists ds,
    show_memories (fun _ => lit "t")
      (serve sample_config
         [sample_request (lit "hello"); sample_request (lit "/danbooru cat")]
         (sample_world 10))
    = Ok ds
    /\ length ds
       = Ndb.count
           (db (serve sample_config
                  [sample_request (lit "hello");
                   sample_request (lit "/danbooru cat")]
                  (sample_world 10))).
Proof.
  apply (listing_never_fails_after_submissions sample_config
           (fun _ => lit "t")).
  intros k m.
  apply (sample_world_Forall (fun e => is_Some (timestamp e.2)) 10).
  repeat constructor; simpl; eauto.
Defined.

Lemma StronglySorted_last_max {A} (R : relation A) (l : list A) (x : A) :
  StronglySorted R l -> NoDup l -> x ∈ l ->
  (forall y, y ∈ l -> y <> x -> ~ R x y) ->
  last l = Some x.
Proof.
  induction l as [|a l IH]; intros Hs Hn Hx Hmax; [inversion Hx|].
  apply StronglySorted_inv in Hs as [Hs Ha].
  apply NoDup_cons in Hn as [Hna Hn].
  destruct l as [|b l].
  - apply list_elem_of_singleton in Hx as ->. reflexivity.
  - change (last (a :: b :: l)) with (last (b :: l)).
    apply elem_of_cons in Hx as [->|Hx].
    + exfalso. apply (Hmax b).
      * right. left.
      * intros ->. apply Hna. left.
      * apply (Forall_inv Ha).
    + apply IH; try assumption.
      intros y Hy. apply Hmax. right. exact Hy.
Qed.

(** X16. With a clock that is later than every stored timestamp, the
    memory that a submission stores is the last one of the listing
    order, under the id that was next. *)
Theorem new_memory_is_listed_last cfg req w t w1 :
  (forall k m, Ndb.rows (db w) !! k = Some m ->
     Ndb.ts_lt (timestamp m) (Some (now req))) ->
  checked_text cfg req w = (Val (inr t), w1) ->
  exists stored,
    last (Ndb.order_by_timestamp (db (new_memory cfg req w).2))
    = Some (Ndb.next_id (db w), stored)
    /\ text stored = t /\ timestamp stored = Some (now req).
Proof.
  intros Hclock Hch.
  destruct (checked_text_inr_inv _ _ _ _ _ Hch) as (-> & _).
  rewrite (new_memory_accepted _ _ _ _ _ Hch). cbn [snd db set_db].
  destruct (evicted_frame w) as (_ & _ & Hn).
  set (stored := {| timestamp := Some (now req); text := t;
                    base64_image := base64_image (Memory_create req t) |}).
  set (ds := Ndb.put (now req) (Memory_create req t) (db (evicted w))).
  assert (Hrows : Ndb.rows ds
                  = <[Ndb.next_id (db w) := stored]>
                      (Ndb.rows (db (evicted w)))).
  { unfold ds, Ndb.put. cbn [Ndb.rows]. rewrite Hn. reflexivity. }
  exists stored. split; [|split; reflexivity].
  apply (StronglySorted_last_max Ndb.entry_le).
  - apply NdbFacts.order_by_timestamp_sorted.
  - apply order_by_timestamp_NoDup.
  - apply NdbFacts.order_by_timestamp_elem. rewrite Hrows.
    apply lookup_insert_eq.
  - intros [k' m'] Hin Hne Hle.
    apply NdbFacts.order_by_timestamp_elem in Hin. rewrite Hrows in Hin.
    apply lookup_insert_Some in Hin as [[<- <-]|[Hk Hin]]; [congruence|].
    apply evicted_rows, Hclock in Hin.
    unfold Ndb.entry_le in Hle. cbn [fst snd timestamp stored] in Hle.
    destruct (timestamp m') as [z|]; simpl in Hin, Hle.
    + destruct Hle as [Hle|[Hle _]]; [lia|]. injection Hle as Hle. lia.
    + destruct Hle as [[]|[Hle _]]. discriminate Hle.
Qed.

Lemma new_memory_is_listed_last_witness :
  exists stored,
    last (Ndb.order_by_timestamp
            (db (new_memory sample_config (sample_request (lit "hello"))
                   (sample_world 10)).2))
    = Some (Ndb.next_id (db (sample_world 10)), stored)
    /\ text stored = lit "hello"
    /\ timestamp stored = Some (now (sample_request (lit "hello"))).
Proof.
  apply (new_memory_is_listed_last sample_config
           (sample_request (lit "hello")) (sample_world 10)
           (lit "hello") (sample_world 10)).
  - intros k m.
    apply (sample_world_Forall
             (fun e => Ndb.ts_lt (timestamp e.2) (Some 50)) 10).
    repeat constructor; simpl; lia.
  - vm_compute. reflexivity.
Defined.

(** ** Forgetting *)

(** X17. Without the deity nothing is forgotten: in a session whose
    [deity] is not [True], and so in the session of a logout, [forget]
    aborts with 401 whatever the form holds, and leaves the world as it
    was. *)
Theorem forget_needs_deity cfg (form_key : result Z) :
  (forall w, deity w <> Some true -> forget form_key w = (Aborted 401, w))
  /\ forall req w,
       validate cfg (Py.strip (form_text req)) (db w) = None ->
       Py.strip (Py.lower (Py.strip (form_text req))) = lit "/logout" ->
       forget form_key (new_memory cfg req w).2
       = (Aborted 401, (new_memory cfg req w).2).
Proof.
  assert (H : forall w, deity w <> Some true ->
                forget form_key w = (Aborted 401, w)).
  { intros w Hw. unfold forget.
    destruct (deity w) as [[]|]; [contradiction | reflexivity | reflexivity]. }
  split; [exact H|]. intros req w Hv Ht. apply H.
  rewrite new_memory_deity, Hv, (first_command_logout cfg _ Ht), Ht.
  discriminate.
Qed.

Lemma forget_needs_deity_witness :
  forget (Ok 2)
    (new_memory sample_config (sample_request (lit "/logout"))
       {| db := db (sample_world 3); deity := Some true; flashes := [] |}).2
  = (Aborted 401,
     (new_memory sample_config (sample_request (lit "/logout"))
        {| db := db (sample_world 3); deity := Some true; flashes := [] |}).2).
Proof.
  apply (forget_needs_deity sample_config (Ok 2)); reflexivity.
Defined.





(** X20. What has been forgotten can be said again: when a deity
    forgets the one memory that has a text, the text (not empty and at
    most MAX_CHARACTERS long) passes validation afterwards. *)
Theorem forgotten_text_is_valid_again cfg w k m :
  deity w = Some true ->
  Ndb.rows (db w) !! k = Some m ->
  (forall k' m', Ndb.rows (db w) !! k' = Some m' -> text m' = text m -> k' = k) ->
  text m <> [] -> Z.of_nat (length (text m)) <= MAX_CHARACTERS cfg ->
  validate cfg (text m) (db w) = Some (Status (ERROR_UNORIGINAL cfg) 400)
  /\ validate cfg (text m) (db (forget (Ok k) w).2) = None.
Proof.
  intros Hd Hk Huniq Hne Hlen. split.
  - pose proof (NdbFacts.count_text_pos _ _ _ _ Hk eq_refl) as Hpos.
    unfold validate.
    destruct (Nat.eqb_spec (length (text m)) 0) as [E|_].
    { destruct (text m); [contradiction | discriminate]. }
    destruct (Z.gtb_spec (Z.of_nat (length (text m))) (MAX_CHARACTERS cfg));
      [lia|].
    rewrite (proj2 (Nat.ltb_lt _ _) Hpos). reflexivity.
  - apply validate_none_intro; [exact Hne | exact Hlen |].
    apply count_text_zero. intros (k' & m' & Hk' & Ht).
    unfold forget in Hk'. rewrite Hd in Hk'.
    cbn [snd db set_db Ndb.delete_key Ndb.rows] in Hk'.
    apply lookup_delete_Some in Hk' as [Hne' Hk'].
    apply Hne'. symmetry. exact (Huniq k' m' Hk' Ht).
Qed.

Lemma forgotten_text_is_valid_again_witness :
  let w := {| db := db (sample_world 3); deity := Some true; flashes := [] |} in
  validate sample_config (text (sample_memory 3 "b")) (db w)
  = Some (Status (ERROR_UNORIGINAL sample_config) 400)
  /\ validate sample_config (text (sample_memory 3 "b"))
       (db (forget (Ok 2) w).2) = None.
Proof.
  intros w.
  apply (forgotten_text_is_valid_again sample_config w 2 (sample_memory 3 "b")).
  - reflexivity.
  - reflexivity.
  - intros k' m' H Ht.
    pose proof (sample_world_Forall
      (fun e => text e.2 = text (sample_memory 3 "b") -> e.1 = 2) 3) as HF.
    apply (HF ltac:(repeat constructor; simpl; intros E;
                    first [discriminate E | reflexivity])
             k' m' H Ht).
  - discriminate.
  - simpl. lia.
Defined.

(** ** The number_links filter *)

Module LinkFacts.

Lemma escape_app a b : escape (a ++ b) = escape a ++ escape b.
Proof. apply flat_map_app. Qed.

Lemma sub_plain prev c s :
  c <> "#"%char \/ prev = Some "&"%char ->
  sub_number_links 0 prev (c :: s) = c :: sub_number_links 0 (Some c) s.
Proof.
  intros H. cbn [sub_number_links]. destruct H as [H| ->].
  - rewrite (bool_decide_eq_false_2 _ H). reflexivity.
  - rewrite (bool_decide_eq_true_2 (Some "&"%char = Some "&"%char) eq_refl).
    destruct (bool_decide (c = "#"%char)); reflexivity.
Qed.

Lemma digit_not_special c :
  re_digit c = true -> escape_char c = [c] /\ c <> "&"%char /\ c <> "#"%char.
Proof.
  intros H. unfold escape_char.
  repeat (case_bool_decide; [subst; discriminate H|]).
  split; [reflexivity|]. split; intros ->; discriminate H.
Qed.

Lemma escape_digits ds : forallb re_digit ds = true -> escape ds = ds.
Proof.
  induction ds as [|d ds IH]; [reflexivity|]. simpl.
  intros H. apply andb_true_iff in H as [Hd Hds].
  destruct (digit_not_special d Hd) as (-> & _). rewrite (IH Hds). reflexivity.
Qed.

(** On what escaping makes of a text without [#], the substitution
    finds nothing: the only [#] are those of [&#39;] and [&#34;]. *)
Lemma sub_escape s : forall prev y,
  forallb (fun c => negb (bool_decide (c = "#"%char))) s = true ->
  prev <> Some "&"%char ->
  exists prev',
    prev' <> Some "&"%char
    /\ sub_number_links 0 prev (escape s ++ y)
       = escape s ++ sub_number_links 0 prev' y.
Proof.
  induction s as [|c s IH]; intros prev y Hs Hp; [exists prev; auto|].
  simpl in Hs. apply andb_true_iff in Hs as [Hc Hs].
  apply negb_true_iff, bool_decide_eq_false_1 in Hc.
  change (escape (c :: s)) with (escape_char c ++ escape s).
  rewrite <- app_assoc. unfold escape_char.
  repeat case_bool_decide; subst; cbn [lit String.list_ascii_of_string app].
  - rewrite !sub_plain by (left; discriminate).
    destruct (IH (Some ";"%char) y Hs) as (p & Hp' & E); [discriminate|].
    exists p. split; [exact Hp'|]. rewrite E. reflexivity.
  - rewrite !sub_plain by (left; discriminate).
    destruct (IH (Some ";"%char) y Hs) as (p & Hp' & E); [discriminate|].
    exists p. split; [exact Hp'|]. rewrite E. reflexivity.
  - rewrite !sub_plain by (left; discriminate).
    destruct (IH (Some ";"%char) y Hs) as (p & Hp' & E); [discriminate|].
    exists p. split; [exact Hp'|]. rewrite E. reflexivity.
  - rewrite sub_plain by (left; discriminate).
    rewrite sub_plain by (right; reflexivity).
    rewrite !sub_plain by (left; discriminate).
    destruct (IH (Some ";"%char) y Hs) as (p & Hp' & E); [discriminate|].
    exists p. split; [exact Hp'|]. rewrite E. reflexivity.
  - rewrite sub_plain by (left; discriminate).
    rewrite sub_plain by (right; reflexivity).
    rewrite !sub_plain by (left; discriminate).
    destruct (IH (Some ";"%char) y Hs) as (p & Hp' & E); [discriminate|].
    exists p. split; [exact Hp'|]. rewrite E. reflexivity.
  - rewrite sub_plain by (left; exact Hc).
    destruct (IH (Some c) y Hs) as (p & Hp' & E); [congruence|].
    exists p. split; [exact Hp'|]. rewrite E. reflexivity.
Qed.

Lemma span_digits_app ds y :
  forallb re_digit ds = true ->
  match y with [] => True | c :: _ => re_digit c = false end ->
  span_digits (ds ++ y) = ds.
Proof.
  intros Hds Hy. induction ds as [|d ds IH]; simpl.
  - destruct y as [|c y]; [reflexivity|]. simpl. rewrite Hy. reflexivity.
  - simpl in Hds. apply andb_true_iff in Hds as [Hd Hds].
    rewrite Hd, (IH Hds). reflexivity.
Qed.

Lemma sub_skip_digits ds : forall prev y,
  forallb re_digit ds = true -> prev <> Some "&"%char ->
  exists prev',
    prev' <> Some "&"%char
    /\ sub_number_links (length ds) prev (ds ++ y)
       = sub_number_links 0 prev' y.
Proof.
  induction ds as [|d ds IH]; intros prev y Hds Hp; [exists prev; auto|].
  simpl in Hds. apply andb_true_iff in Hds as [Hd Hds].
  cbn [length app sub_number_links].
  apply (IH (Some d) y Hds).
  destruct (digit_not_special d Hd) as (_ & Hamp & _). congruence.
Qed.

Lemma escape_head_not_digit t :
  match t with [] => True | c :: _ => re_digit c = false end ->
  match escape t with [] => True | c :: _ => re_digit c = false end.
Proof.
  destruct t as [|c t]; [trivial|]. intros Hc.
  change (escape (c :: t)) with (escape_char c ++ escape t).
  unfold escape_char. repeat case_bool_decide; try reflexivity.
  exact Hc.
Qed.

End LinkFacts.

(** X21. A text without [#] only gets escaped: the character
    references that escaping writes for the quotes are not turned into
    links. *)
Theorem number_links_without_hash s :
  forallb (fun c => negb (bool_decide (c = "#"%char))) s = true ->
  number_links s = escape s.
Proof.
  intros Hs. unfold number_links. cbv zeta.
  destruct (LinkFacts.sub_escape s None [] Hs) as (prev' & _ & H);
    [discriminate|].
  rewrite !app_nil_r in H. exact H.
Qed.

Lemma number_links_without_hash_witness :
  number_links (lit "Tom's <b> & co") = escape (lit "Tom's <b> & co").
Proof. apply number_links_without_hash. reflexivity. Defined.

(** X22. A [#] with digits after it becomes the link to that anchor,
    also directly after an ampersand that was typed: for texts [s] and
    [t] without [#], [t] not starting with a digit, [s#digits t] is
    filtered to [s] escaped, the anchor for [#digits], and [t]
    escaped. *)
Theorem number_links_links_numbers s ds t :
  forallb (fun c => negb (bool_decide (c = "#"%char))) s = true ->
  ds <> [] -> forallb re_digit ds = true ->
  forallb (fun c => negb (bool_decide (c = "#"%char))) t = true ->
  match t with [] => True | c :: _ => re_digit c = false end ->
  number_links (s ++ "#"%char :: ds ++ t)
  = escape s ++ anchor ("#"%char :: ds) ++ escape t.
Proof.
  intros Hs Hne Hds Ht Hhead. unfold number_links. cbv zeta.
  rewrite LinkFacts.escape_app.
  change (escape ("#"%char :: ds ++ t)) with ("#"%char :: escape (ds ++ t)).
  rewrite LinkFacts.escape_app, (LinkFacts.escape_digits _ Hds).
  destruct (LinkFacts.sub_escape s None ("#"%char :: ds ++ escape t) Hs)
    as (p1 & Hp1 & ->); [discriminate|].
  f_equal. cbn [sub_number_links].
  rewrite (LinkFacts.span_digits_app ds (escape t) Hds
             (LinkFacts.escape_head_not_digit t Hhead)).
  rewrite bool_decide_eq_true_2 by reflexivity.
  rewrite (bool_decide_eq_false_2 _ Hp1).
  destruct ds as [|d ds']; [contradiction|]. cbn [negb andb truthy].
  f_equal.
  destruct (LinkFacts.sub_skip_digits (d :: ds') (Some "#"%char) (escape t) Hds)
    as (p2 & Hp2 & ->); [discriminate|].
  destruct (LinkFacts.sub_escape t p2 [] Ht Hp2) as (p3 & _ & H).
  rewrite !app_nil_r in H. exact H.
Qed.

Lemma number_links_links_numbers_witness :
  number_links (lit "see &#12, 'ok'")
  = escape (lit "see &") ++ anchor (lit "#12") ++ escape (lit ", 'ok'").
Proof.
  apply (number_links_links_numbers (lit "see &") (lit "12") (lit ", 'ok'"));
    [reflexivity | discriminate | reflexivity | reflexivity | reflexivity].
Defined.

(** ** Thumbnails *)

Lemma startswith_iff p s : Py.startswith p s = true <-> exists r, s = p ++ r.
Proof.
  split; [apply PyFacts.startswith_inv|].
  intros [r ->]. apply PyFacts.startswith_app.
Qed.

Lemma endswith_iff p s : Py.endswith p s = true <-> exists q, s = q ++ p.
Proof.
  unfold Py.endswith. rewrite startswith_iff. split.
  - intros [r H]. exists (rev r).
    rewrite <- (rev_involutive s), H, rev_app_distr, rev_involutive.
    reflexivity.
  - intros [q ->]. exists (rev q). apply rev_app_distr.
Qed.

(** X23. A memory gets a thumbnail exactly when its text, lower-cased,
    ends in one of [.jpg], [.jpeg], [.png], [.gif], the text itself
    starts with [http], and the HEAD request for it answers 200; the
    thumbnail is then what [glitch_from_url] makes of the text. *)
Theorem thumbnail_iff req t b :
  base64_image (Memory_create req t) = Some b
  <-> (exists ext q,
         In ext [lit ".jpg"; lit ".jpeg"; lit ".png"; lit ".gif"]
         /\ Py.lower t = q ++ ext)
      /\ (exists r, t = lit "http" ++ r)
      /\ http_head req t = Some 200
      /\ b = glitch_from_url req t.
Proof.
  unfold Memory_create, uri_valid_image. cbn [base64_image].
  destruct (existsb _ image_extension_whitelist) eqn:Hext; cbn [negb].
  - apply existsb_exists in Hext as (ext & Hin & He).
    apply endswith_iff in He as [q Hq].
    destruct (Py.startswith (lit "http") t) eqn:Hh; cbn [negb].
    + apply startswith_iff in Hh.
      destruct (http_head req t) as [code|] eqn:Hc.
      * destruct (bool_decide_reflect (code = 200)) as [->|Hne]; split.
        -- intros [= <-]. eauto 10.
        -- intros (_ & _ & _ & ->). reflexivity.
        -- discriminate.
        -- intros (_ & _ & [= E] & _). contradiction.
      * split; [discriminate|]. intros (_ & _ & E & _). discriminate E.
    + split; [discriminate|]. intros (_ & Hr & _).
      apply startswith_iff in Hr. congruence.
  - split; [discriminate|]. intros ((ext & q & Hin & Hq) & _). exfalso.
    assert (Ht : existsb (fun ext => Py.endswith ext (Py.lower t))
                   image_extension_whitelist = true).
    { apply existsb_exists. exists ext. split; [exact Hin|].
      apply endswith_iff. eauto. }
    congruence.
Qed.

(** ** Failing commands, and what the others leave alone *)

(** X24. The [try] of the danbooru callback covers the choice alone: an
    exception of the search, an IndexError too, reaches the caller as it
    is, and a chosen post without file_url gives a KeyError; only the
    empty result becomes the 400. In each case the world is as it was. *)
Theorem danbooru_failures cfg args req w :
  (forall e,
     danbooru_posts req (Py.join [space] args) = Err e ->
     SlashDanbooru_callback cfg args req w = (Raise e, w))
  /\ (forall results chosen,
        danbooru_posts req (Py.join [space] args) = Ok results ->
        results !! (random_draw req mod length results)%nat = Some chosen ->
        file_url chosen = None ->
        SlashDanbooru_callback cfg args req w = (Raise KeyError, w))
  /\ (SlashDanbooru_callback cfg args req w).2 = w.
Proof.
  split; [|split].
  - intros e He. rewrite danbooru_callback_run, He. reflexivity.
  - intros results chosen Hr Hl Hu. rewrite danbooru_callback_run, Hr.
    unfold random_choice. destruct results; [discriminate Hl|].
    rewrite Hl, Hu. reflexivity.
  - apply danbooru_callback_world.
Qed.

Lemma danbooru_failures_witness :
  SlashDanbooru_callback sample_config [lit "cat"]
    {| form_text := lit "/danbooru cat";
       danbooru_posts := fun _ => Err IndexError;
       random_draw := 0; http_head := fun _ => None;
       glitch_from_url := fun _ => []; now := 0 |}
    (sample_world 3)
  = (Raise IndexError, sample_world 3).
Proof.
  apply (danbooru_failures sample_config [lit "cat"]). reflexivity.
Defined.

Lemma first_command_logout_prefix cfg t :
  starts_with_command (SlashLogout cfg) t = true ->
  first_command (slash_commands cfg) t = Some (SlashLogout cfg).
Proof.
  intros H. unfold first_command, slash_commands. cbn [List.find].
  rewrite H. unfold starts_with_command in *.
  apply PyFacts.startswith_inv in H as [r ->]. reflexivity.
Qed.

Lemma first_command_login_prefix cfg t :
  starts_with_command (SlashLogin cfg) t = true ->
  first_command (slash_commands cfg) t = Some (SlashLogin cfg).
Proof.
  intros H. unfold first_command, slash_commands. cbn [List.find].
  rewrite H. reflexivity.
Qed.

(** X25. The number of arguments is not forgiven: a valid text that
    starts with [/logout] and has any argument, or that starts with
    [/login] and has none or more than one, ends in a TypeError, and the
    world (the deity included) is as it was. *)
Theorem wrong_number_of_arguments cfg req w :
  validate cfg (Py.strip (form_text req)) (db w) = None ->
  (starts_with_command (SlashLogout cfg) (Py.strip (form_text req)) = true ->
   args_of (pattern_of (SlashLogout cfg))
     (Py.strip (Py.lower (Py.strip (form_text req)))) <> [] ->
   new_memory cfg req w = (Raise TypeError, w))
  /\ (starts_with_command (SlashLogin cfg) (Py.strip (form_text req)) = true ->
      length (args_of (pattern_of (SlashLogin cfg))
                (Py.strip (Py.lower (Py.strip (form_text req))))) <> 1%nat ->
      new_memory cfg req w = (Raise TypeError, w)).
Proof.
  intros Hv. split; intros Hm Hargs.
  - apply (new_memory_first_command cfg req w (SlashLogout cfg) Hv
             (first_command_logout_prefix cfg _ Hm)).
    cbn [callback SlashLogout]. unfold SlashLogout_callback.
    destruct (args_of _ _); [contradiction | reflexivity].
  - apply (new_memory_first_command cfg req w (SlashLogin cfg) Hv
             (first_command_login_prefix cfg _ Hm)).
    cbn [callback SlashLogin]. unfold SlashLogin_callback.
    destruct (args_of _ _) as [|a [|b l]]; [reflexivity | | reflexivity].
    simpl in Hargs. contradiction.
Qed.

Lemma wrong_number_of_arguments_witness :
  new_memory sample_config (sample_request (lit "/logoutall"))
    {| db := db (sample_world 3); deity := Some true; flashes := [] |}
  = (Raise TypeError,
     {| db := db (sample_world 3); deity := Some true; flashes := [] |}).
Proof.
  destruct (wrong_number_of_arguments sample_config
              (sample_request (lit "/logoutall"))
              {| db := db (sample_world 3); deity := Some true;
                 flashes := [] |}) as [H _]; [reflexivity|].
  apply H; [reflexivity | discriminate].
Defined.

(** X26. Only login and logout touch the session: a submission whose
    text starts with neither [/login] nor [/logout] leaves [deity] as
    it is, whatever else it does. *)
Theorem other_texts_keep_the_session cfg req w :
  starts_with_command (SlashLogin cfg) (Py.strip (form_text req)) = false ->
  starts_with_command (SlashLogout cfg) (Py.strip (form_text req)) = false ->
  deity (new_memory cfg req w).2 = deity w.
Proof.
  intros Hin Hout. rewrite new_memory_deity.
  destruct (validate cfg _ (db w)); [reflexivity|].
  destruct (first_command _ _) as [cls|] eqn:Hf; [|reflexivity].
  pose proof Hf as Hm. apply find_some in Hm as [_ Hm].
  apply first_command_in in Hf. simpl in Hf.
  destruct Hf as [<-|[<-|[<-|[]]]]; try congruence.
  cbn [callback SlashDanbooru]. rewrite danbooru_callback_world. reflexivity.
Qed.

Lemma other_texts_keep_the_session_witness :
  deity
    (new_memory sample_config (sample_request (lit "/danbooru cat"))
       {| db := db (sample_world 10); deity := Some true; flashes := [] |}).2
  = deity {| db := db (sample_world 10); deity := Some true; flashes := [] |}.
Proof.
  apply (other_texts_keep_the_session sample_config
           (sample_request (lit "/danbooru cat"))); reflexivity.
Defined.

(** X27. The board fills up to ten and stays there: with fresh ids and
    at most ten memories, a submission that gets as far as being stored
    leaves one memory more, but never more than ten. *)
Theorem count_after_storing cfg req w t w1 :
  fresh_ids (db w) -> (Ndb.count (db w) <= 10)%nat ->
  checked_text cfg req w = (Val (inr t), w1) ->
  Ndb.count (db (new_memory cfg req w).2) = Nat.min (S (Ndb.count (db w))) 10.
Proof.
  intros Hfresh Hle Hch.
  destruct (checked_text_inr_inv _ _ _ _ _ Hch) as (-> & _).
  rewrite (new_memory_accepted _ _ _ _ _ Hch). cbn [snd db set_db].
  destruct (evicted_frame w) as (_ & _ & Hn).
  assert (Hnone : Ndb.rows (db (evicted w)) !! Ndb.next_id (db (evicted w))
                  = None).
  { destruct (Ndb.rows (db (evicted w)) !! Ndb.next_id (db (evicted w)))
      as [m|] eqn:E; [|reflexivity].
    apply evicted_rows in E. rewrite Hn in E.
    specialize (Hfresh _ (ex_intro _ _ E)). lia. }
  assert (Hput : Ndb.count (Ndb.put (now req) (Memory_create req t)
                              (db (evicted w)))
                 = S (Ndb.count (db (evicted w)))).
  { unfold Ndb.count, Ndb.put. cbn [Ndb.rows].
    apply map_size_insert_None, Hnone. }
  rewrite Hput.
  destruct (Nat.eq_dec (Ndb.count (db w)) 10) as [E|E].
  - rewrite (evicted_count_full _ E), E. reflexivity.
  - rewrite (evicted_other _ E). lia.
Qed.

Lemma count_after_storing_witness :
  Ndb.count
    (db (new_memory sample_config (sample_request (lit "hello"))
           (sample_world 10)).2)
  = Nat.min (S (Ndb.count (db (sample_world 10)))) 10.
Proof.
  apply (count_after_storing sample_config (sample_request (lit "hello"))
           (sample_world 10) (lit "hello") (sample_world 10)).
  - intros k [m H].
    apply (sample_world_Forall (fun e => e.1 < 12) 10
             ltac:(repeat constructor; simpl; lia) k m H).
  - vm_compute. lia.
  - vm_compute. reflexivity.
Defined.
